(** * binja_datatypes/import_dwarf.py: the DWARF importer and type-library exporter

    A shallow embedding of [src/binja_datatypes/import_dwarf.py]:

    - the small part of Python's [str], [posixpath] and [pathlib] the script
      relies on ([PurePosixPath]: construction from a string, [str], [name],
      [suffix], [with_suffix], the [/] operator);
    - the host platform (Binary Ninja) as a record of operations the script
      calls, each of which may raise;
    - [DwarfImporter] ([__init__], [_find_dwarf_file], [base_binaryview],
      [import_debug_info], [export_type_library]) and [main] in a monad of
      state and exceptions, where the state carries the file system (what
      [os.stat] answers for each path), the written files and a trace of the
      observable effects;
    - [argparse]'s reading of the command line as a parameter of [main]: it
      exits or hands back the arguments.  *)

From Stdlib Require Import String Ascii List Bool Arith Lia.
Import ListNotations.
Local Open Scope list_scope.
Local Open Scope string_scope.

Set Implicit Arguments.

(** ** Python strings *)

Module PyStr.

Definition sep : ascii := "/"%char.
Definition dot : ascii := "."%char.

(** [s.startswith(p)] *)
Fixpoint startswith (s p : string) {struct p} : bool :=
  match p, s with
  | EmptyString, _ => true
  | String _ _, EmptyString => false
  | String b p', String a s' => Ascii.eqb a b && startswith s' p'
  end.

(** [s.endswith(p)]: [p] is a prefix of one of the tails of [s]. *)
Fixpoint endswith (s p : string) : bool :=
  String.eqb s p ||
  match s with
  | EmptyString => false
  | String _ s' => endswith s' p
  end.

(** [c in s] for a one-character [c]. *)
Fixpoint contains (c : ascii) (s : string) : bool :=
  match s with
  | EmptyString => false
  | String a s' => Ascii.eqb a c || contains c s'
  end.

(** [s.rfind(c)]: the last index of [c], [None] for Python's [-1]. *)
Fixpoint rfind (c : ascii) (s : string) : option nat :=
  match s with
  | EmptyString => None
  | String a s' =>
      match rfind c s' with
      | Some i => Some (S i)
      | None => if Ascii.eqb a c then Some 0 else None
      end
  end.

(** [s[i:]] and [s[:i]] for [0 <= i]. *)
Fixpoint drop (i : nat) (s : string) : string :=
  match i, s with
  | O, _ => s
  | S _, EmptyString => EmptyString
  | S i', String _ s' => drop i' s'
  end.

Fixpoint take (i : nat) (s : string) : string :=
  match i, s with
  | O, _ => EmptyString
  | S _, EmptyString => EmptyString
  | S i', String a s' => String a (take i' s')
  end.

(** [s.split("/")]: never empty, [''.split("/") == ['']]. *)
Fixpoint split (s : string) : list string :=
  match s with
  | EmptyString => [EmptyString]
  | String a s' =>
      if Ascii.eqb a sep then EmptyString :: split s'
      else match split s' with
           | x :: xs => String a x :: xs
           | [] => [String a EmptyString]
           end
  end.

(** ["/".join(l)] *)
Fixpoint join (l : list string) : string :=
  match l with
  | [] => EmptyString
  | [x] => x
  | x :: l' => x ++ String sep (join l')
  end.

End PyStr.

(** ** posixpath and pathlib (POSIX flavour) *)

Module Pathlib.
Import PyStr.

(** A parsed path: [root] is [""], ["/"] or ["//"]; [parts] is the tail,
    the components after the root ([PurePath._tail]).  The POSIX flavour
    has no drive. *)
Record Path : Type := mkPath { root : string; parts : list string }.

Definition Path_eq_dec (p q : Path) : {p = q} + {p <> q}.
Proof.
  decide equality; [apply (list_eq_dec string_dec) | apply string_dec].
Defined.

Definition path_eqb (p q : Path) : bool :=
  if Path_eq_dec p q then true else false.

(** [posixpath.splitroot], without the (always empty) drive:
    [if p[:1] != sep: return '', p]; [elif p[1:2] != sep or p[2:3] == sep:
    return sep, p[1:]]; [else: return p[:2], p[2:]].  One leading slash,
    or three and more, give the root ["/"]; exactly two give ["//"]. *)
Definition splitroot (p : string) : string * string :=
  if negb (String.eqb (take 1 p) "/") then ("", p)
  else if negb (String.eqb (take 1 (drop 1 p)) "/")
          || String.eqb (take 1 (drop 2 p)) "/"
  then ("/", drop 1 p)
  else (take 2 p, drop 2 p).

(** The component filter of [PurePath._parse_path]:
    [x for x in rel.split(sep) if x and x != '.']. *)
Definition keep_part (x : string) : bool :=
  negb (String.eqb x "") && negb (String.eqb x ".").

(** [Path(s)] for one string argument ([PurePath._parse_path]). *)
Definition parse (s : string) : Path :=
  let '(r, rel) := splitroot s in
  mkPath r (filter keep_part (split rel)).

(** [str(p)]: [root + "/".join(tail)], or ["."] when that is empty. *)
Definition str (p : Path) : string :=
  let s := root p ++ join (parts p) in
  if String.eqb s "" then "." else s.

(** [p.name]: the last component, [''] when there is none. *)
Definition name (p : Path) : string := last (parts p) "".

(** [PurePath.suffix] of a file name:
    [i = name.rfind('.')]; [name[i:]] if [0 < i < len(name) - 1] else ['']. *)
Definition suffix_of (n : string) : string :=
  match rfind dot n with
  | Some i =>
      if Nat.ltb 0 i && Nat.ltb (S i) (String.length n) then drop i n else ""
  | None => ""
  end.

Definition suffix (p : Path) : string := suffix_of (name p).

(** [posixpath.join(a, b)] *)
Definition posix_join (a b : string) : string :=
  if startswith b "/" then b
  else if String.eqb a "" || endswith a "/" then a ++ b
  else a ++ String sep b.

(** [p / seg] for a string [seg] ([PurePath.joinpath]): the segments are
    joined with [posixpath.join] and parsed again. *)
Definition joinpath (p : Path) (seg : string) : Path :=
  parse (posix_join (str p) seg).

(** [p.with_suffix(sfx)]; [inl] carries the message of the [ValueError]. *)
Definition with_suffix (p : Path) (sfx : string) : string + Path :=
  if contains sep sfx then inl ("Invalid suffix " ++ sfx)
  else if (negb (String.eqb sfx "") && negb (startswith sfx "."))
          || String.eqb sfx "."
  then inl ("Invalid suffix " ++ sfx)
  else
    let n := name p in
    if String.eqb n "" then inl (str p ++ " has an empty name")
    else
      let old := suffix p in
      let n' :=
        if String.eqb old "" then n ++ sfx
        else take (String.length n - String.length old) n ++ sfx in
      inr (mkPath (root p) (removelast (parts p) ++ [n'])%list).

(** [p.parent] on the parsed form, used to describe file systems. *)
Definition parent (p : Path) : Path :=
  mkPath (root p) (removelast (parts p)).

(** What every path built by [parse] satisfies. *)
Definition good_part (x : string) : Prop :=
  x <> "" /\ x <> "." /\ contains sep x = false.

Definition wf (p : Path) : Prop :=
  (root p = "" \/ root p = "/" \/ root p = "//") /\ Forall good_part (parts p).

End Pathlib.

Import PyStr Pathlib.

(** ** Exceptions, and the monad of state and exceptions

    A Python call either returns a value or raises; either way the
    mutations made so far stay.  [M S A] is a computation over a state [S]. *)

(** The error numbers [os.stat] can fail with; [EOTHER] stands for the
    rest. *)
Inductive Errno : Type :=
| ENOENT
| ENOTDIR
| EBADF
| ELOOP
| EACCES
| ENAMETOOLONG
| EOTHER (n : nat).

(** [OSError e] is the [OSError] (or its subclass, such as
    [PermissionError] for [EACCES]) that [os.stat] raises with error number
    [e]; [FileNotFoundError msg] is the one the script raises itself. *)
Inductive exn : Type :=
| ValueError (msg : string)
| FileNotFoundError (msg : string)
| OSError (errno : Errno)
| NameError (ident : string)
| AttributeError (msg : string)
| AssertionError
| SystemExit (code : nat) (msg : string)
| PlatformError (op : string).

Definition M (S A : Type) : Type := S -> (exn + A) * S.

Definition ret {S A} (a : A) : M S A := fun s => (inr a, s).

Definition raise {S A} (e : exn) : M S A := fun s => (inl e, s).

Definition bind {S A B} (c : M S A) (k : A -> M S B) : M S B :=
  fun s =>
    match c s with
    | (inr a, s') => k a s'
    | (inl e, s') => (inl e, s')
    end.

Definition get {S} : M S S := fun s => (inr s, s).

Definition modify {S} (f : S -> S) : M S unit := fun s => (inr tt, f s).

Declare Scope py_scope.
Delimit Scope py_scope with py.
Notation "x <- c ;; k" := (bind c (fun x => k))
  (at level 61, c at next level, right associativity) : py_scope.
Notation "c ;;; k" := (bind c (fun _ => k))
  (at level 61, right associativity) : py_scope.
Local Open Scope py_scope.

(** [a or b] on [Optional[Path]] operands whose right operand may raise.
    A [Path] defines neither [__bool__] nor [__len__], so every [Path] is
    truthy and [None] is the only falsy value of the type. *)
Definition or_else {S} (a : option Path) (b : M S Path) : M S Path :=
  match a with
  | Some p => ret p
  | None => b
  end.

(** ** The host platform and the program *)

Section Program.

(** Objects the host owns and the script only passes around. *)
Variables Ty Arch Platform DebugInfo : Type.

(** [str(arch)], used in the f-string that names the library. *)
Variable arch_name : Arch -> string.

Record Function : Type := mkFunction { fn_name : string; fn_type : Ty }.

(** What the script reads from a [BinaryView]. [bv_types] are the items of
    the [types] mapping in iteration order. *)
Record BinaryView : Type := mkBinaryView {
  bv_filename : string;
  bv_arch : option Arch;
  bv_platform : option Platform;
  bv_types : list (string * Ty);
  bv_functions : list Function
}.

(** A [TypeLibrary] under construction: the calls the script makes on it,
    each list in the order of the calls. *)
Record TypeLibrary : Type := mkTypeLibrary {
  tl_arch : Arch;
  tl_name : string;
  tl_platforms : list Platform;
  tl_alternate_names : list string;
  tl_named_types : list (string * Ty);
  tl_named_objects : list (string * Ty)
}.

(** The module-level name [bv], which the script never defines itself. *)
Inductive Binding : Type :=
| Unbound
| BoundNone
| BoundView (filename : string).

(** The operations of the host; [None] stands for an exception raised by
    the host. *)
Record Host : Type := mkHost {
  host_load : string -> list (string * bool) -> option BinaryView;
  host_parse_debug_info : BinaryView -> BinaryView -> option DebugInfo;
  host_apply_debug_info : BinaryView -> DebugInfo -> option BinaryView;
  host_update_analysis_and_wait : BinaryView -> option BinaryView;
  host_finalize : TypeLibrary -> bool;
  host_bv : Binding
}.

Variable host : Host.

(** Observable effects, in the order they happen. [EvInit] and
    [EvFindDwarf] mark the entry of [DwarfImporter.__init__] and of
    [_find_dwarf_file]. *)
Inductive Event : Type :=
| EvInit
| EvFindDwarf (base_file : Path)
| EvLog (logger msg : string)
| EvExists (p : Path)
| EvLoad (path : string) (options : list (string * bool))
| EvParse
| EvApply
| EvAnalyze
| EvNewLibrary (name : string)
| EvFinalize
| EvWrite (path : string) (lib : TypeLibrary).

(** What [os.stat] says of a path: it succeeds, it fails with an error
    number, or the path cannot be handed to the system at all (an embedded
    null character: [ValueError]). *)
Inductive StatResult : Type :=
| StatOk
| StatError (e : Errno)
| StatInvalid.

Record World : Type := mkWorld {
  fs : Path -> StatResult;
  disk : list (string * TypeLibrary);
  trace : list Event
}.

Definition emit (e : Event) : M World unit :=
  modify (fun w => mkWorld (fs w) (disk w) (trace w ++ [e])%list).

(** [os.stat] of a path: a file written since the run started is there,
    otherwise the file system the run started with answers. *)
Definition stat (w : World) (p : Path) : StatResult :=
  if existsb (fun e => path_eqb (parse (fst e)) p) (disk w) then StatOk
  else fs w p.

(** Whether a path exists: whether [os.stat] succeeds on it. *)
Definition exists_in (w : World) (p : Path) : bool :=
  match stat w p with
  | StatOk => true
  | _ => false
  end.

(** [pathlib._ignore_error]: the error numbers [exists()] reads as
    "not there". *)
Definition _ignore_error (e : Errno) : bool :=
  match e with
  | ENOENT | ENOTDIR | EBADF | ELOOP => true
  | _ => false
  end.

(** [p.exists()] (pathlib up to Python 3.13): [True] when [stat] succeeds,
    [False] on an ignored error number or a [ValueError]; any other
    [OSError] is raised again. *)
Definition path_exists (p : Path) : M World bool :=
  emit (EvExists p) ;;;
  w <- get ;;
  match stat w p with
  | StatOk => ret true
  | StatError e => if _ignore_error e then ret false else raise (OSError e)
  | StatInvalid => ret false
  end.

Definition log_debug (logger msg : string) : M World unit :=
  emit (EvLog logger msg).

Definition of_host {A} (op : string) (r : option A) : M World A :=
  match r with
  | Some a => ret a
  | None => raise (PlatformError op)
  end.

(** [binaryninja.load(path, options=...)] *)
Definition bn_load (path : string) (options : list (string * bool))
  : M World BinaryView :=
  emit (EvLoad path options) ;;;
  of_host "load" (host_load host path options).

(** [type_library.write_to_file(path)] *)
Definition write_to_file (lib : TypeLibrary) (path : string) : M World unit :=
  emit (EvWrite path lib) ;;;
  modify (fun w => mkWorld (fs w) ((path, lib) :: disk w) (trace w)).

(** *** DwarfImporter *)

(** The instance: its four attributes, the entry [cached_property] keeps
    for [base_binaryview] in the instance dictionary, and whether
    [functools.cache] holds an entry of [import_debug_info] for it. *)
Record DwarfImporter : Type := mkDwarfImporter {
  base_file : Path;
  dwarf_file : Path;
  type_archive : Path;
  logger : string;
  cached_base_binaryview : option BinaryView;
  import_debug_info_cached : bool
}.

Definition set_view (v : BinaryView) (o : DwarfImporter) : DwarfImporter :=
  mkDwarfImporter (base_file o) (dwarf_file o) (type_archive o) (logger o)
                  (Some v) (import_debug_info_cached o).

Definition set_cached (o : DwarfImporter) : DwarfImporter :=
  mkDwarfImporter (base_file o) (dwarf_file o) (type_archive o) (logger o)
                  (cached_base_binaryview o) true.

(** [base_logger.getChild(child)] of the logger ["binaryninja-dwarf"]. *)
Definition getChild (child : string) : string :=
  "binaryninja-dwarf." ++ child.

Definition _find_dwarf_file (logger : string) (base_file : Path) : M World Path :=
  emit (EvFindDwarf base_file) ;;;
  let dsym_path := parse (str base_file ++ ".dSYM") in
  log_debug logger
    ("Looking for DWARF file for " ++ str base_file ++ " @ " ++ str dsym_path) ;;;
  found <- path_exists dsym_path ;;
  if found then
    ret (joinpath (joinpath (joinpath (joinpath dsym_path "Contents")
                                      "Resources") "DWARF") (name base_file))
  else
    raise (FileNotFoundError ("Could not find DWARF file for " ++ str base_file)).

(** [Path(bv.file.filename)] with the module-level [bv]. *)
Definition current_file : M World Path :=
  match host_bv host with
  | Unbound => raise (NameError "bv")
  | BoundNone => raise (AttributeError "'NoneType' object has no attribute 'file'")
  | BoundView filename => ret (parse filename)
  end.

(** [not p] for a [Path] [p]: always [False], see [or_else]. *)
Definition not_path (p : Path) : bool := false.

Definition __init__ (base_file dwarf_file type_archive : option Path)
  : M World DwarfImporter :=
  emit EvInit ;;;
  self_base_file <- match base_file with
                    | Some p => ret p
                    | None => current_file
                    end ;;
  (if not_path self_base_file
   then raise (ValueError "No base file provided and no file open in BinaryNinja")
   else ret tt) ;;;
  let self_logger := getChild ("DwarfImporter[" ++ name self_base_file ++ "]") in
  self_dwarf_file <- or_else dwarf_file (_find_dwarf_file self_logger self_base_file) ;;
  self_type_archive <-
    or_else type_archive
      (match with_suffix self_base_file ".bntl" with
       | inr p => ret p
       | inl msg => raise (ValueError msg)
       end) ;;
  ret (mkDwarfImporter self_base_file self_dwarf_file self_type_archive
                       self_logger None false).

(** Methods run on the instance and the world. *)
Definition Method (A : Type) : Type := M (DwarfImporter * World) A.

Definition in_world {A} (c : M World A) : Method A :=
  fun s =>
    match c (snd s) with
    | (r, w') => (r, (fst s, w'))
    end.

Definition self : Method DwarfImporter := fun s => (inr (fst s), s).

Definition update_self (f : DwarfImporter -> DwarfImporter) : Method unit :=
  modify (fun s => (f (fst s), snd s)).

(** The [cached_property]: the first access loads the base file and keeps
    the view, later accesses return the kept view. *)
Definition base_binaryview : Method BinaryView :=
  o <- self ;;
  match cached_base_binaryview o with
  | Some v => ret v
  | None =>
      v <- in_world (bn_load (str (base_file o))
                             [("corePlugins.dwarfImport", true)]) ;;
      update_self (set_view v) ;;;
      ret v
  end.

(** The body of [import_debug_info]. The view is one object: what the host
    does to it stays in the instance. *)
Definition import_debug_info_body : Method unit :=
  o <- self ;;
  debug_binaryview <- in_world (bn_load (str (dwarf_file o)) []) ;;
  base <- base_binaryview ;;
  in_world (emit EvParse) ;;;
  debug_info <- in_world (of_host "parse_debug_info"
                   (host_parse_debug_info host base debug_binaryview)) ;;
  base <- base_binaryview ;;
  in_world (emit EvApply) ;;;
  base <- in_world (of_host "apply_debug_info"
                   (host_apply_debug_info host base debug_info)) ;;
  update_self (set_view base) ;;;
  base <- base_binaryview ;;
  in_world (emit EvAnalyze) ;;;
  base <- in_world (of_host "update_analysis_and_wait"
                   (host_update_analysis_and_wait host base)) ;;
  update_self (set_view base).

(** [@cache]: the body runs unless an entry for this instance exists; the
    entry is made when the body returns, not when it raises. *)
Definition import_debug_info : Method unit :=
  o <- self ;;
  if import_debug_info_cached o then ret tt
  else import_debug_info_body ;;; update_self set_cached.

Definition py_assert {S} (b : bool) : M S unit :=
  if b then ret tt else raise AssertionError.

Definition is_some {A} (o : option A) : bool :=
  match o with Some _ => true | None => false end.

Definition arch_str (a : option Arch) : string :=
  match a with Some a => arch_name a | None => "None" end.

Definition add_platform (p : Platform) (l : TypeLibrary) : TypeLibrary :=
  mkTypeLibrary (tl_arch l) (tl_name l) (tl_platforms l ++ [p])%list
    (tl_alternate_names l) (tl_named_types l) (tl_named_objects l).

Definition add_alternate_name (n : string) (l : TypeLibrary) : TypeLibrary :=
  mkTypeLibrary (tl_arch l) (tl_name l) (tl_platforms l)
    (tl_alternate_names l ++ [n])%list (tl_named_types l) (tl_named_objects l).

Definition add_named_type (n : string) (t : Ty) (l : TypeLibrary) : TypeLibrary :=
  mkTypeLibrary (tl_arch l) (tl_name l) (tl_platforms l)
    (tl_alternate_names l) (tl_named_types l ++ [(n, t)])%list (tl_named_objects l).

Definition add_named_object (n : string) (t : Ty) (l : TypeLibrary) : TypeLibrary :=
  mkTypeLibrary (tl_arch l) (tl_name l) (tl_platforms l)
    (tl_alternate_names l) (tl_named_types l) (tl_named_objects l ++ [(n, t)])%list.

(** [for x in l: ...] where the body updates the local object [acc]. *)
Fixpoint for_each_on {S A B} (l : list A) (acc : B) (body : A -> B -> M S B)
  : M S B :=
  match l with
  | [] => ret acc
  | x :: l' => acc' <- body x acc ;; for_each_on l' acc' body
  end.

(** [export_type_library]. The library is a local object: the loops thread
    it. [add_platform] is handed [self.base_binaryview.platform] again; the
    [assert] above it has already ruled out [None], for which the host would
    raise. *)
Definition export_type_library (output_file : option Path) : Method unit :=
  import_debug_info ;;;
  view <- base_binaryview ;;
  let arch := bv_arch view in
  view <- base_binaryview ;;
  let filename := name (parse (bv_filename view)) in
  let lib_name := filename ++ "_" ++ arch_str arch ++ "_types" in
  match arch with
  | None => raise AssertionError
  | Some a =>
      view <- base_binaryview ;;
      py_assert (is_some (bv_platform view)) ;;;
      in_world (emit (EvNewLibrary lib_name)) ;;;
      let type_library := mkTypeLibrary a lib_name [] [] [] [] in
      view <- base_binaryview ;;
      type_library <- match bv_platform view with
                      | Some p => ret (add_platform p type_library)
                      | None => raise (AttributeError "platform")
                      end ;;
      let type_library := add_alternate_name filename type_library in
      view <- base_binaryview ;;
      type_library <-
        for_each_on (bv_types view) type_library (fun item lib =>
          o <- self ;;
          in_world (log_debug (logger o)
            ("Adding type " ++ fst item ++ " to type library")) ;;;
          ret (add_named_type (fst item) (snd item) lib)) ;;
      view <- base_binaryview ;;
      type_library <-
        for_each_on (bv_functions view) type_library (fun function lib =>
          o <- self ;;
          in_world (log_debug (logger o)
            ("Adding function " ++ fn_name function ++ " to type library")) ;;;
          ret (add_named_object (fn_name function) (fn_type function) lib)) ;;
      in_world (emit EvFinalize) ;;;
      py_assert (host_finalize host type_library) ;;;
      o <- self ;;
      output_path <- or_else output_file (ret (type_archive o)) ;;
      in_world (write_to_file type_library (str output_path))
  end.

(** *** The command line

    [argparse] is Python's: what [parser.parse_args()] does with the
    command line is a parameter.  It either exits (a usage error with status
    2, [--help] with status 0) or hands back the positional [BASE_FILE] and
    the optional [--dwarf-file] and [--type-library]; [type=Path] converts
    each.  [parser.error] exits with status 2. *)
Record Namespace : Type := mkNamespace {
  args_BASE_FILE : string;
  args_dwarf_file : option string;
  args_type_library : option string
}.

Variable parse_args : list string -> (nat * string) + Namespace.

(** [main()], run with the command line [argv] ([sys.argv[1:]]). *)
Definition main (argv : list string) : M World unit :=
  match parse_args argv with
  | inl (code, msg) => raise (SystemExit code msg)
  | inr args =>
      let BASE_FILE := parse (args_BASE_FILE args) in
      let dwarf_file := option_map parse (args_dwarf_file args) in
      let type_library := option_map parse (args_type_library args) in
      (match type_library with
       | Some p =>
           if negb (String.eqb (suffix p) ".bntl")
           then raise (SystemExit 2 "TYPE_ARCHIVE must have a .bntl extension.")
           else ret tt
       | None => ret tt
       end) ;;;
      importer <- __init__ (Some BASE_FILE) dwarf_file type_library ;;
      fun w =>
        match export_type_library None (importer, w) with
        | (r, s) => (r, snd s)
        end
  end.

(** *** Callers and observations *)

(** A caller of one instance: any sequence of calls of the two public
    methods. An exception ends the sequence, as it ends the script. *)
Inductive Call : Type :=
| CallImport
| CallExport (output_file : option Path).

Definition run_call (c : Call) : Method unit :=
  match c with
  | CallImport => import_debug_info
  | CallExport output_file => export_type_library output_file
  end.

Fixpoint run_calls (l : list Call) : Method unit :=
  match l with
  | [] => ret tt
  | c :: l' => run_call c ;;; run_calls l'
  end.

(** The events of the load, parse, apply and analyze sequence. *)
Definition is_import_event (e : Event) : bool :=
  match e with
  | EvLoad _ _ | EvParse | EvApply | EvAnalyze => true
  | _ => false
  end.

(** The whole sequence, for an instance with the given files. *)
Definition import_sequence (base_file dwarf_file : Path) : list Event :=
  [EvLoad (str dwarf_file) [];
   EvLoad (str base_file) [("corePlugins.dwarfImport", true)];
   EvParse; EvApply; EvAnalyze].

(** The log lines of the two loops of [export_type_library]. *)
Definition type_logs (logger : string) (l : list (string * Ty)) : list Event :=
  map (fun item => EvLog logger ("Adding type " ++ fst item ++ " to type library")) l.

Definition function_logs (logger : string) (l : list Function) : list Event :=
  map (fun f => EvLog logger ("Adding function " ++ fn_name f ++ " to type library")) l.

Definition signature (f : Function) : string * Ty := (fn_name f, fn_type f).

(** The library [export_type_library] is to build from a view with
    architecture [a] and platform [p]. *)
Definition library_of (view : BinaryView) (a : Arch) (p : Platform) : TypeLibrary :=
  let filename := name (parse (bv_filename view)) in
  mkTypeLibrary a (filename ++ "_" ++ arch_name a ++ "_types") [p] [filename]
    (bv_types view) (map signature (bv_functions view)).

(** Where [export_type_library output_file] is to write, for an instance. *)
Definition output_path (output_file : option Path) (o : DwarfImporter) : string :=
  str (match output_file with Some q => q | None => type_archive o end).

(** In a file system every existing path has an existing parent. *)
Definition ancestor_closed (w : World) : Prop :=
  forall p, exists_in w p = true -> exists_in w (parent p) = true.

(** The world after more events have been observed. *)
Definition after_events (w : World) (evs : list Event) : World :=
  mkWorld (fs w) (disk w) (trace w ++ evs)%list.

(** A world with the given paths and nothing written or observed yet. *)
Definition world_of (paths : list Path) : World :=
  mkWorld (fun p => if existsb (path_eqb p) paths then StatOk
                    else StatError ENOENT) [] [].

(** The four attributes [__init__] sets. *)
Definition attributes (o : DwarfImporter) : Path * Path * Path * string :=
  (base_file o, dwarf_file o, type_archive o, logger o).

(** What the host can raise. *)
Definition is_platform_error (e : exn) : Prop :=
  exists op, e = PlatformError op.

(** Two accesses of the property [base_binaryview] in a row. *)
Definition base_binaryview_twice : Method (BinaryView * BinaryView) :=
  v1 <- base_binaryview ;;
  v2 <- base_binaryview ;;
  ret (v1, v2).

(** Two exports in a row on one instance. *)
Definition export_twice (first second : option Path) : Method unit :=
  export_type_library first ;;;
  export_type_library second.

End Program.

Arguments EvInit {Ty Arch Platform}.
Arguments EvFindDwarf {Ty Arch Platform} base_file.
Arguments EvLog {Ty Arch Platform} logger msg.
Arguments EvExists {Ty Arch Platform} p.
Arguments EvLoad {Ty Arch Platform} path options.
Arguments EvParse {Ty Arch Platform}.
Arguments EvApply {Ty Arch Platform}.
Arguments EvAnalyze {Ty Arch Platform}.
Arguments EvNewLibrary {Ty Arch Platform} name.
Arguments EvFinalize {Ty Arch Platform}.
Arguments world_of {Ty Arch Platform} paths.
Arguments self {Ty Arch Platform} _.
Arguments type_logs {Ty Arch Platform} logger l.
Arguments function_logs {Ty Arch Platform} logger l.
Arguments import_sequence {Ty Arch Platform} base_file dwarf_file.
Arguments output_path {Ty Arch Platform} output_file o.
Arguments attributes {Ty Arch Platform} o.

(** ** A concrete host

    A small host to run the program on: one base file [foo.bin] with its
    [dSYM] bundle, whose debug information carries one type and two
    functions. *)

Module Demo.

Definition Ty : Type := string.
Definition Arch : Type := string.
Definition Platform : Type := string.
Definition DebugInfo : Type := (list (string * Ty) * list (Function Ty))%type.

Definition base_path : Path := parse "foo.bin".
Definition dsym_file : Path := parse "foo.bin.dSYM/Contents/Resources/DWARF/foo.bin".

Definition base_view : BinaryView Ty Arch Platform :=
  mkBinaryView "foo.bin" (Some "x86_64") (Some "mac-x86_64") [] [].

Definition debug_view : BinaryView Ty Arch Platform :=
  mkBinaryView "foo.bin.dSYM/Contents/Resources/DWARF/foo.bin"
    (Some "x86_64") (Some "mac-x86_64")
    [("point", "struct { int x; int y; }")]
    [mkFunction "main" "int (int, char**)";
     mkFunction "norm" "int (struct point*)"].

Definition load (path : string) (options : list (string * bool))
  : option (BinaryView Ty Arch Platform) :=
  if String.eqb path "foo.bin" then Some base_view
  else if String.eqb path "foo.bin.dSYM/Contents/Resources/DWARF/foo.bin"
       then Some debug_view
       else None.

Definition merge (v : BinaryView Ty Arch Platform) (d : DebugInfo)
  : BinaryView Ty Arch Platform :=
  mkBinaryView (bv_filename v) (bv_arch v) (bv_platform v)
    (bv_types v ++ fst d)%list (bv_functions v ++ snd d)%list.

Definition host : Host Ty Arch Platform DebugInfo :=
  mkHost load
    (fun _ debug => Some (bv_types debug, bv_functions debug))
    (fun v d => Some (merge v d))
    (fun v => Some v)
    (fun _ => true)
    Unbound.

(** The same host inside a session whose [bv] is a view without a file. *)
Definition host_unnamed_view : Host Ty Arch Platform DebugInfo :=
  mkHost load
    (fun _ debug => Some (bv_types debug, bv_functions debug))
    (fun v d => Some (merge v d))
    (fun v => Some v)
    (fun _ => true)
    (BoundView "").

(** The same host with a parser that raises. *)
Definition host_parse_fails : Host Ty Arch Platform DebugInfo :=
  mkHost load
    (fun _ _ => None)
    (fun v d => Some (merge v d))
    (fun v => Some v)
    (fun _ => true)
    Unbound.

Definition arch_name (a : Arch) : string := a.

(** A reading of the command lines of this parser, enough for the runs
    below: an option takes the next word as its value, one word is the
    positional [BASE_FILE], [-h] and [--help] exit with status 0 and anything
    else is a usage error with status 2. *)
Fixpoint read_args (argv : list string) (base dwarf archive : option string)
  : (nat * string) + Namespace :=
  match argv with
  | [] =>
      match base with
      | Some b => inr (mkNamespace b dwarf archive)
      | None => inl (2, "the following arguments are required: BASE_FILE")
      end
  | a :: rest =>
      if String.eqb a "-h" || String.eqb a "--help" then inl (0, "usage")
      else if String.eqb a "--dwarf-file" then
        match rest with
        | v :: rest' => read_args rest' base (Some v) archive
        | [] => inl (2, "argument --dwarf-file: expected one argument")
        end
      else if String.eqb a "--type-library" then
        match rest with
        | v :: rest' => read_args rest' base dwarf (Some v)
        | [] => inl (2, "argument --type-library: expected one argument")
        end
      else
        match base with
        | None => read_args rest (Some a) dwarf archive
        | Some _ => inl (2, "unrecognized arguments")
        end
  end.

Definition parse_args (argv : list string) : (nat * string) + Namespace :=
  read_args argv None None None.

(** The directory holds the [dSYM] bundle, and the bundle is empty. *)
Definition empty_bundle : World Ty Arch Platform :=
  world_of [parse "."; parse "foo.bin.dSYM"].

(** The directory holds the bundle with its DWARF file. *)
Definition full_bundle : World Ty Arch Platform :=
  world_of [parse "."; parse "foo.bin"; parse "foo.bin.dSYM";
            parse "foo.bin.dSYM/Contents";
            parse "foo.bin.dSYM/Contents/Resources";
            parse "foo.bin.dSYM/Contents/Resources/DWARF";
            parse "foo.bin.dSYM/Contents/Resources/DWARF/foo.bin"].

(** An instance as [__init__] leaves it, writing to [out.txt]. *)
Definition importer : DwarfImporter Ty Arch Platform :=
  mkDwarfImporter base_path dsym_file (parse "out.txt")
    (getChild "DwarfImporter[foo.bin]") None false.

(** The view after the import, and the library the export builds from it. *)
Definition imported_view : BinaryView Ty Arch Platform :=
  merge base_view (bv_types debug_view, bv_functions debug_view).

Definition library : TypeLibrary Ty Arch Platform :=
  mkTypeLibrary "x86_64" "foo.bin_x86_64_types" ["mac-x86_64"] ["foo.bin"]
    (bv_types imported_view) (map (@signature Ty) (bv_functions imported_view)).

(** The instance and the world after [import_debug_info]. *)
Definition imported : DwarfImporter Ty Arch Platform :=
  mkDwarfImporter base_path dsym_file (parse "out.txt")
    (getChild "DwarfImporter[foo.bin]") (Some imported_view) true.

Definition after_import : World Ty Arch Platform :=
  after_events full_bundle (import_sequence base_path dsym_file).

(** An instance whose debug file the host cannot load. *)
Definition importer_without_debug : DwarfImporter Ty Arch Platform :=
  mkDwarfImporter base_path (parse "missing.dwarf") (parse "out.txt")
    (getChild "DwarfImporter[foo.bin]") None false.

(** A host whose views have no architecture. *)
Definition host_without_arch : Host Ty Arch Platform DebugInfo :=
  mkHost
    (fun path options =>
       option_map (fun v => mkBinaryView (bv_filename v) None (bv_platform v)
                              (bv_types v) (bv_functions v))
                  (load path options))
    (fun _ debug => Some (bv_types debug, bv_functions debug))
    (fun v d => Some (merge v d))
    (fun v => Some v)
    (fun _ => true)
    Unbound.

Definition imported_without_arch : DwarfImporter Ty Arch Platform :=
  mkDwarfImporter base_path dsym_file (parse "out.txt")
    (getChild "DwarfImporter[foo.bin]")
    (Some (mkBinaryView "foo.bin" None (Some "mac-x86_64")
             (bv_types imported_view) (bv_functions imported_view)))
    true.

(** A directory the user may not search: every lookup in it is refused. *)
Definition locked_directory : World Ty Arch Platform :=
  mkWorld (fun p => if path_eqb p (parse ".") then StatOk else StatError EACCES)
    [] [].

(** A base file in a directory, with its bundle beside it. *)
Definition nested_bundle : World Ty Arch Platform :=
  world_of [parse "."; parse "build"; parse "build/app"; parse "build/app.dSYM"].

End Demo.

(** * Properties *)

(** ** The path model on concrete strings *)

Example parse_rel : parse "foo.bin" = mkPath "" ["foo.bin"].
Proof. reflexivity. Qed.

Example parse_norm : parse "/a//b/./c/" = mkPath "/" ["a"; "b"; "c"].
Proof. reflexivity. Qed.

Example parse_two_slashes : parse "//a" = mkPath "//" ["a"].
Proof. reflexivity. Qed.

Example parse_three_slashes : parse "///a" = mkPath "/" ["a"].
Proof. reflexivity. Qed.

Example str_empty : str (parse "") = ".".
Proof. reflexivity. Qed.

Example suffix_plain : suffix (parse "dir/foo.tar.gz") = ".gz".
Proof. reflexivity. Qed.

Example suffix_hidden : suffix (parse ".bntl") = "".
Proof. reflexivity. Qed.

Example suffix_trailing_dot : suffix (parse "foo.") = "".
Proof. reflexivity. Qed.

Example suffix_trailing_slash : suffix (parse "out.bntl/") = ".bntl".
Proof. reflexivity. Qed.

Example with_suffix_ex :
  with_suffix (parse "dir/foo.bin") ".bntl" = inr (parse "dir/foo.bntl").
Proof. reflexivity. Qed.

Example joinpath_ex : joinpath (parse "a.dSYM") "Contents" = parse "a.dSYM/Contents".
Proof. reflexivity. Qed.

(** ** Strings *)

Section StringFacts.

Lemma sapp_assoc (a b c : string) : (a ++ b) ++ c = a ++ (b ++ c).
Proof. induction a as [|x a IH]; simpl; [reflexivity | now rewrite IH]. Qed.

Lemma sapp_nil_r (a : string) : a ++ "" = a.
Proof. induction a as [|x a IH]; simpl; [reflexivity | now rewrite IH]. Qed.

Lemma sapp_length (a b : string) :
  String.length (a ++ b) = String.length a + String.length b.
Proof. induction a as [|x a IH]; simpl; [reflexivity | now rewrite IH]. Qed.

Lemma sapp_eq_nil (a b : string) : a ++ b = "" -> a = "" /\ b = "".
Proof. destruct a; simpl; [auto | discriminate]. Qed.

Lemma contains_app c (a b : string) :
  contains c (a ++ b) = contains c a || contains c b.
Proof.
  induction a as [|x a IH]; simpl; [reflexivity|].
  now rewrite IH, orb_assoc.
Qed.

Lemma endswith_refl (p : string) : endswith p p = true.
Proof.
  destruct p; [reflexivity|].
  cbn [endswith]. now rewrite String.eqb_refl.
Qed.

Lemma endswith_app (a p : string) : endswith (a ++ p) p = true.
Proof.
  induction a as [|x a IH]; simpl.
  - apply endswith_refl.
  - rewrite IH. apply orb_true_r.
Qed.

Lemma endswith_inv (s p : string) :
  endswith s p = true -> exists a, s = a ++ p.
Proof.
  induction s as [|x s IH]; simpl; intros H.
  - destruct p; [now exists "" | discriminate].
  - apply orb_true_iff in H as [H|H].
    + change (String.eqb (String x s) p = true) in H.
      apply String.eqb_eq in H. now exists "".
    + destruct (IH H) as [a ->]. now exists (String x a).
Qed.

Lemma endswith_snoc (t : string) (c d : ascii) :
  endswith (t ++ String c "") (String d "") = Ascii.eqb c d.
Proof.
  induction t as [|x t IH]; simpl.
  - now destruct (Ascii.eqb c d).
  - rewrite IH. destruct (Ascii.eqb x d); [|reflexivity].
    now destruct t.
Qed.

Lemma snoc_view (s : string) :
  s <> "" -> exists t c, s = t ++ String c "".
Proof.
  induction s as [|x s IH]; [congruence|]. intros _.
  destruct s as [|y s].
  - now exists "", x.
  - destruct IH as (t & c & E); [discriminate|]. rewrite E.
    now exists (String x t), c.
Qed.

Lemma take_drop (i : nat) (s : string) : take i s ++ drop i s = s.
Proof.
  revert s; induction i as [|i IH]; intros [|x s]; simpl; try reflexivity.
  now rewrite IH.
Qed.

Lemma drop_length (i : nat) (s : string) :
  String.length (drop i s) = String.length s - i.
Proof.
  revert s; induction i as [|i IH]; intros [|x s]; simpl; auto.
Qed.

Lemma rfind_lt c (s : string) i : rfind c s = Some i -> i < String.length s.
Proof.
  revert i; induction s as [|x s IH]; simpl; intros i; [discriminate|].
  destruct (rfind c s) as [j|].
  - intros [= <-]. specialize (IH j eq_refl). lia.
  - destruct (Ascii.eqb x c); [intros [= <-]; lia | discriminate].
Qed.

Lemma split_not_nil (s : string) : split s <> [].
Proof.
  induction s as [|x s IH]; simpl; [discriminate|].
  destruct (Ascii.eqb x sep); [discriminate|].
  destruct (split s); [contradiction | discriminate].
Qed.

Lemma split_no_sep (s : string) : contains sep s = false -> split s = [s].
Proof.
  induction s as [|x s IH]; simpl; [reflexivity|].
  intros H. apply orb_false_iff in H as [Hx Hs].
  rewrite Hx, (IH Hs). reflexivity.
Qed.

Lemma split_app (a b : string) :
  split (a ++ String sep b) = (split a ++ split b)%list.
Proof.
  induction a as [|x a IH]; simpl.
  - reflexivity.
  - rewrite IH. destruct (Ascii.eqb x sep); [reflexivity|].
    destruct (split a) eqn:E; [now apply split_not_nil in E | reflexivity].
Qed.

Lemma join_cons (x : string) (l : list string) :
  l <> [] -> join (x :: l) = x ++ String sep (join l).
Proof. destruct l; [congruence | reflexivity]. Qed.

Lemma join_snoc (l : list string) (x : string) :
  l <> [] -> join (l ++ [x]) = join l ++ String sep x.
Proof.
  induction l as [|y l IH]; [congruence|]. intros _.
  destruct l as [|z l].
  - reflexivity.
  - change (join ((y :: z :: l) ++ [x])) with (y ++ String sep (join ((z :: l) ++ [x]))).
    rewrite IH by discriminate.
    change (join (y :: z :: l)) with (y ++ String sep (join (z :: l))).
    now rewrite sapp_assoc.
Qed.

Lemma join_snoc_app (l : list string) (x t : string) :
  join (l ++ [x]) ++ t = join (l ++ [x ++ t]).
Proof.
  destruct l as [|y l].
  - reflexivity.
  - rewrite !join_snoc by discriminate.
    now rewrite sapp_assoc.
Qed.

Lemma split_join (l : list string) :
  l <> [] -> Forall (fun x => contains sep x = false) l -> split (join l) = l.
Proof.
  induction l as [|x l IH]; [congruence|]. intros _ H.
  inversion H as [|? ? Hx Hl]; subst.
  destruct l as [|y l].
  - now apply split_no_sep.
  - rewrite join_cons by discriminate.
    rewrite split_app, (split_no_sep _ Hx), IH by (discriminate || assumption).
    reflexivity.
Qed.

End StringFacts.

(** ** Paths *)

Section PathFacts.

Lemma good_part_keep (x : string) : good_part x -> keep_part x = true.
Proof.
  intros (H1 & H2 & _). unfold keep_part.
  apply String.eqb_neq in H1, H2. now rewrite H1, H2.
Qed.

Lemma filter_keep_good (l : list string) :
  Forall good_part l -> filter keep_part l = l.
Proof.
  induction 1 as [|x l Hx _ IH]; simpl; [reflexivity|].
  now rewrite (good_part_keep Hx), IH.
Qed.

Lemma good_no_sep (l : list string) :
  Forall good_part l -> Forall (fun x => contains sep x = false) l.
Proof. apply Forall_impl. now intros x (_ & _ & H). Qed.

Lemma good_part_head (x : string) :
  good_part x -> exists c t, x = String c t /\ Ascii.eqb c sep = false.
Proof.
  intros (H1 & _ & H3). destruct x as [|c t]; [congruence|].
  simpl in H3. apply orb_false_iff in H3 as [H3 _]. now exists c, t.
Qed.

Lemma good_part_app (x t : string) :
  good_part x -> t <> "" -> contains sep t = false -> good_part (x ++ t).
Proof.
  intros (H1 & H2 & H3) Ht Hs. repeat split.
  - intros E. now apply sapp_eq_nil in E as [? ?].
  - destruct x as [|c x]; [congruence|]. simpl. intros [= _ E].
    now apply sapp_eq_nil in E as [? ?].
  - now rewrite contains_app, H3, Hs.
Qed.

(** A joined chain of components starts with a character that is not a
    slash. *)
Lemma join_good_head (l : list string) :
  l <> [] -> Forall good_part l ->
  exists c t, join l = String c t /\ Ascii.eqb c sep = false.
Proof.
  destruct l as [|x l]; [congruence|]. intros _ H.
  inversion H as [|? ? Hx _]; subst.
  destruct (good_part_head Hx) as (c & t & -> & Hc).
  destruct l as [|y l].
  - now exists c, t.
  - rewrite join_cons by discriminate. simpl. eauto.
Qed.

Lemma splitroot_root (r s : string) :
  r = "" \/ r = "/" \/ r = "//" ->
  startswith s "/" = false ->
  splitroot (r ++ s) = (r, s).
Proof.
  intros Hr Hs.
  destruct s as [|c s].
  - destruct Hr as [-> | [-> | ->]]; reflexivity.
  - simpl in Hs. rewrite andb_true_r in Hs.
    destruct Hr as [-> | [-> | ->]]; unfold splitroot; cbn;
      rewrite Hs; reflexivity.
Qed.

Lemma str_nonempty_parts (p : Path) :
  parts p <> [] -> Forall good_part (parts p) ->
  str p = root p ++ join (parts p).
Proof.
  intros Hn Hg. unfold str.
  destruct (join_good_head Hn Hg) as (c & t & E & _).
  destruct (String.eqb_spec (root p ++ join (parts p)) "") as [H|H];
    [|reflexivity].
  apply sapp_eq_nil in H as [_ H]. congruence.
Qed.

(** Parsing what [str] prints gives the path back. *)
Lemma parse_str (p : Path) : wf p -> parse (str p) = p.
Proof.
  destruct p as [r l]. intros [Hr Hg]. simpl in *.
  destruct l as [|x l].
  - destruct Hr as [-> | [-> | ->]]; reflexivity.
  - rewrite str_nonempty_parts by (simpl; (discriminate || assumption)).
    simpl root; simpl parts.
    destruct (join_good_head (l := x :: l)) as (c & t & E & Hc);
      [discriminate | assumption |].
    unfold parse. rewrite splitroot_root; trivial.
    + rewrite split_join by (discriminate || now apply good_no_sep).
      now rewrite filter_keep_good.
    + rewrite E. cbn [startswith]. unfold sep in Hc. now rewrite Hc.
Qed.

Lemma split_no_sep_all (s : string) :
  Forall (fun x => contains sep x = false) (split s).
Proof.
  induction s as [|c s IH]; simpl.
  - now constructor.
  - destruct (Ascii.eqb c sep) eqn:Hc.
    + now constructor.
    + destruct (split s) as [|x xs].
      * constructor; [simpl; now rewrite Hc | constructor].
      * inversion IH; subst. constructor; [simpl; now rewrite Hc | assumption].
Qed.

Lemma splitroot_roots (s : string) :
  fst (splitroot s) = "" \/ fst (splitroot s) = "/" \/ fst (splitroot s) = "//".
Proof.
  unfold splitroot.
  destruct (String.eqb_spec (take 1 s) "/") as [E0|]; cbn [negb fst];
    [|now left].
  destruct (String.eqb_spec (take 1 (drop 1 s)) "/") as [E1|];
    cbn [negb orb fst]; [|now (right; left)].
  destruct (String.eqb (take 1 (drop 2 s)) "/"); cbn [fst];
    [now (right; left)|].
  right; right.
  destruct s as [|a [|b s]]; cbn in *; try discriminate.
  injection E0 as ->; injection E1 as ->. reflexivity.
Qed.

(** Every path built from a string is well formed. *)
Lemma parse_wf (s : string) : wf (parse s).
Proof.
  unfold parse. pose proof (splitroot_roots s) as Hr.
  destruct (splitroot s) as [r rel]. split; [exact Hr|]. simpl.
  apply Forall_forall. intros x Hx. apply filter_In in Hx as [Hin Hk].
  pose proof (split_no_sep_all rel) as Hs.
  rewrite Forall_forall in Hs. specialize (Hs x Hin).
  unfold keep_part in Hk. apply andb_true_iff in Hk as [H1 H2].
  apply negb_true_iff in H1, H2. apply String.eqb_neq in H1, H2.
  now repeat split.
Qed.

Lemma no_sep_startswith (s : string) :
  contains sep s = false -> startswith s "/" = false.
Proof.
  destruct s as [|c s]; [reflexivity|]. cbn [contains startswith].
  intros H. apply orb_false_iff in H as [H _]. unfold sep in H. now rewrite H.
Qed.

(** A joined chain of components ends with a character that is not a
    slash. *)
Lemma join_good_last (l : list string) :
  l <> [] -> Forall good_part l ->
  exists t c, join l = t ++ String c "" /\ Ascii.eqb c sep = false.
Proof.
  intros Hn Hg. destruct (exists_last Hn) as (l' & x & ->).
  apply Forall_app in Hg as [_ Hx]. inversion Hx as [|? ? (Hx1 & _ & Hx3) _]; subst.
  destruct (snoc_view Hx1) as (t & c & ->).
  rewrite contains_app in Hx3. apply orb_false_iff in Hx3 as [_ Hc].
  cbn [contains] in Hc. rewrite orb_false_r in Hc.
  destruct l' as [|y l'].
  - now exists t, c.
  - rewrite join_snoc by discriminate.
    exists (join (y :: l') ++ String sep t), c. split; [|assumption].
    rewrite sapp_assoc. reflexivity.
Qed.

(** [p / seg] appends the component [seg], unless [seg] is empty or a
    dot. *)
Lemma joinpath_spec (p : Path) (seg : string) :
  wf p -> contains sep seg = false ->
  joinpath p seg = mkPath (root p) (parts p ++ filter keep_part [seg]).
Proof.
  destruct p as [r l]. intros [Hr Hg] Hseg. cbn [root parts] in *.
  unfold joinpath, posix_join. rewrite (no_sep_startswith _ Hseg).
  destruct l as [|x l].
  - destruct Hr as [-> | [-> | ->]]; cbn [str root parts join append String.eqb orb].
    + change (parse ("." ++ String sep seg) = mkPath "" (filter keep_part [seg])).
      unfold parse.
      change (splitroot ("." ++ String sep seg))
        with (splitroot ("" ++ ("." ++ String sep seg))).
      rewrite splitroot_root by (auto; reflexivity).
      now rewrite split_app, filter_app, (split_no_sep _ Hseg).
    + change (parse ("/" ++ seg) = mkPath "/" (filter keep_part [seg])).
      unfold parse. rewrite splitroot_root by (auto using no_sep_startswith).
      now rewrite (split_no_sep _ Hseg).
    + change (parse ("//" ++ seg) = mkPath "//" (filter keep_part [seg])).
      unfold parse. rewrite splitroot_root by (auto using no_sep_startswith).
      now rewrite (split_no_sep _ Hseg).
  - assert (Hn : x :: l <> []) by discriminate.
    rewrite str_nonempty_parts by assumption. cbn [root parts].
    destruct (join_good_last Hn Hg) as (t & c & Et & Hc).
    destruct (join_good_head Hn Hg) as (c0 & t0 & E0 & Hc0).
    assert (E1 : String.eqb (r ++ join (x :: l)) "" = false).
    { apply String.eqb_neq. intros E. apply sapp_eq_nil in E as [_ E]. congruence. }
    assert (E2 : endswith (r ++ join (x :: l)) "/" = false).
    { rewrite Et, <- sapp_assoc, endswith_snoc. exact Hc. }
    rewrite E1, E2. cbn [orb]. rewrite sapp_assoc.
    unfold parse. rewrite splitroot_root; trivial.
    + rewrite split_app, filter_app.
      rewrite split_join by (trivial; now apply good_no_sep).
      now rewrite (filter_keep_good Hg), (split_no_sep _ Hseg).
    + rewrite E0. cbn [append startswith]. unfold sep in Hc0. now rewrite Hc0.
Qed.

Lemma wf_snoc (p : Path) (seg : string) :
  wf p -> good_part seg -> wf (mkPath (root p) (parts p ++ [seg])).
Proof.
  intros [Hr Hg] Hs. split; [exact Hr|]. cbn [parts].
  apply Forall_app. split; [assumption | now constructor].
Qed.

(** [Path(f"{p}.dSYM")] for a path with a name: the suffix goes onto the
    last component. *)
Lemma dsym_spec (p : Path) (init : list string) (n : string) :
  wf p -> parts p = (init ++ [n])%list ->
  parse (str p ++ ".dSYM") = mkPath (root p) (init ++ [n ++ ".dSYM"]).
Proof.
  intros [Hr Hg] E.
  assert (Hq : wf (mkPath (root p) (init ++ [n ++ ".dSYM"]))).
  { split; [exact Hr|]. cbn [parts]. rewrite E in Hg.
    apply Forall_app in Hg as [Hi Hn]. apply Forall_app. split; [assumption|].
    inversion Hn; subst. constructor; [|constructor].
    apply good_part_app; [assumption | discriminate | reflexivity]. }
  rewrite <- (parse_str Hq) at 1. f_equal.
  rewrite str_nonempty_parts; [|rewrite E; now destruct init | assumption].
  rewrite str_nonempty_parts; [|now destruct init | apply Hq].
  cbn [root parts]. rewrite E, sapp_assoc, join_snoc_app. reflexivity.
Qed.

Lemma splitroot_app (s x : string) :
  3 <= String.length s ->
  splitroot (s ++ x) = (fst (splitroot s), snd (splitroot s) ++ x).
Proof.
  destruct s as [|a [|b [|c s]]]; cbn [String.length]; try lia. intros _.
  unfold splitroot. cbn [take drop append].
  destruct (negb (String.eqb (String a "") "/")); [reflexivity|].
  destruct (negb (String.eqb (String b "") "/") || String.eqb (String c "") "/");
    reflexivity.
Qed.

(** Parsing a string of three characters or more followed by a slash and
    more components. *)
Lemma parse_app (s t : string) :
  3 <= String.length s ->
  parse (s ++ String sep t)
  = mkPath (root (parse s)) (parts (parse s) ++ filter keep_part (split t)).
Proof.
  intros H. unfold parse. rewrite splitroot_app by assumption.
  destruct (splitroot s) as [r rel]. cbn [fst snd root parts].
  now rewrite split_app, filter_app.
Qed.

Lemma str_length (p : Path) : 1 <= String.length (str p).
Proof.
  unfold str. destruct (String.eqb_spec (root p ++ join (parts p)) "") as [|H].
  - cbn. lia.
  - destruct (root p ++ join (parts p)); [congruence | cbn; lia].
Qed.

Lemma name_no_sep (p : Path) : wf p -> contains sep (name p) = false.
Proof.
  intros [_ Hg]. unfold name.
  destruct (parts p) as [|x l] eqn:E; [reflexivity|].
  assert (Hin : In (last (x :: l) "") (x :: l)).
  { destruct (@exists_last _ (x :: l)) as (l' & y & E'); [discriminate|].
    rewrite E', last_last. apply in_or_app. right. now left. }
  rewrite Forall_forall in Hg. now destruct (Hg _ Hin) as (_ & _ & ?).
Qed.

Lemma take_all (s : string) : take (String.length s) s = s.
Proof. induction s as [|c s IH]; cbn; [reflexivity | now rewrite IH]. Qed.

(** A file name is its stem followed by its suffix. *)
Lemma suffix_of_stem (n : string) :
  take (String.length n - String.length (suffix_of n)) n ++ suffix_of n = n.
Proof.
  unfold suffix_of. destruct (rfind dot n) as [i|] eqn:E.
  - destruct (Nat.ltb 0 i && Nat.ltb (S i) (String.length n)).
    + apply rfind_lt in E. rewrite drop_length.
      replace (String.length n - (String.length n - i)) with i by lia.
      apply take_drop.
    + cbn [String.length]. now rewrite Nat.sub_0_r, take_all, sapp_nil_r.
  - cbn [String.length]. now rewrite Nat.sub_0_r, take_all, sapp_nil_r.
Qed.

Lemma suffix_of_nil : suffix_of "" = "".
Proof. reflexivity. Qed.

(** [str] of a path with a name ends with that name. *)
Lemma str_name (p : Path) :
  name p <> "" -> exists pre, str p = pre ++ name p.
Proof.
  unfold name, str. intros Hn.
  destruct (parts p) as [|x l] eqn:E; [now cbn in Hn|].
  destruct (@exists_last _ (x :: l)) as (l' & n & E'); [discriminate|].
  rewrite E' in *. rewrite last_last in *.
  assert (J : exists pre, join (l' ++ [n]) = pre ++ n).
  { destruct l' as [|y l'].
    - now exists "".
    - rewrite join_snoc by discriminate.
      exists (join (y :: l') ++ String sep ""). now rewrite sapp_assoc. }
  destruct J as [pre J]. rewrite J.
  destruct (String.eqb_spec (root p ++ pre ++ n) "") as [H|H].
  - apply sapp_eq_nil in H as [_ H]. apply sapp_eq_nil in H as [_ H]. congruence.
  - exists (root p ++ pre). now rewrite sapp_assoc.
Qed.

(** A path with a non-empty suffix prints with that suffix at the end. *)
Lemma suffix_endswith (p : Path) :
  suffix p <> "" -> endswith (str p) (suffix p) = true.
Proof.
  unfold suffix. intros Hs.
  assert (Hn : name p <> "").
  { intros E. rewrite E in Hs. now apply Hs. }
  destruct (@str_name p Hn) as [pre ->].
  rewrite <- (suffix_of_stem (name p)) at 1.
  rewrite <- sapp_assoc. apply endswith_app.
Qed.

(** [with_suffix(".bntl")] on a path with a name. *)
Lemma with_suffix_bntl (p : Path) :
  name p <> "" ->
  with_suffix p ".bntl"
  = inr (mkPath (root p)
           (removelast (parts p)
            ++ [take (String.length (name p) - String.length (suffix p)) (name p)
                ++ ".bntl"])).
Proof.
  intros Hn. unfold with_suffix. cbn [contains startswith String.eqb negb andb orb].
  change (contains sep ".bntl") with false. cbv iota.
  apply String.eqb_neq in Hn. rewrite Hn.
  destruct (String.eqb_spec (suffix p) "") as [E|E]; [|reflexivity].
  rewrite E. cbn [String.length]. now rewrite Nat.sub_0_r, take_all.
Qed.

Lemma with_suffix_no_name (p : Path) (sfx : string) :
  name p = "" -> exists msg, with_suffix p sfx = inl msg.
Proof.
  intros Hn. unfold with_suffix. rewrite Hn.
  destruct (contains sep sfx); [eauto|].
  destruct (_ || _); cbn [String.eqb]; eauto.
Qed.

Lemma str_snoc_endswith (r : string) (l : list string) (x t : string) :
  endswith (str (mkPath r (l ++ [x ++ t]))) t = true.
Proof.
  destruct t as [|c t].
  - rewrite <- (sapp_nil_r (str _)). apply endswith_app.
  - assert (Hn : name (mkPath r (l ++ [x ++ String c t])) <> "").
    { unfold name. cbn [parts]. rewrite last_last. intros E.
      apply sapp_eq_nil in E as [_ E]. discriminate. }
    destruct (@str_name _ Hn) as [pre ->].
    unfold name. cbn [parts]. rewrite last_last, <- sapp_assoc.
    apply endswith_app.
Qed.

End PathFacts.

(** ** The program *)

Section ProgramFacts.

Variables Ty Arch Platform DebugInfo : Type.
Variable arch_name : Arch -> string.
Variable host : Host Ty Arch Platform DebugInfo.
Variable parse_args : list string -> (nat * string) + Namespace.

Implicit Types (w : World Ty Arch Platform) (o : DwarfImporter Ty Arch Platform).

Lemma after_events_nil w : after_events w [] = w.
Proof. destruct w. unfold after_events. cbn. now rewrite app_nil_r. Qed.

Lemma after_events_app w evs evs' :
  after_events (after_events w evs) evs' = after_events w (evs ++ evs').
Proof. unfold after_events. cbn. now rewrite app_assoc. Qed.

Lemma exists_in_after_events w evs p :
  exists_in (after_events w evs) p = exists_in w p.
Proof. reflexivity. Qed.

Lemma stat_after_events w evs p : stat (after_events w evs) p = stat w p.
Proof. reflexivity. Qed.

Lemma exists_in_stat w p : exists_in w p = true -> stat w p = StatOk.
Proof. unfold exists_in. now destruct (stat w p). Qed.

(** *** Discovery *)

(** What [_find_dwarf_file] computes: one look at the bundle path decides. *)
Lemma find_dwarf_file_run lg base w :
  let dsym_path := parse (str base ++ ".dSYM") in
  _find_dwarf_file lg base w =
  (match stat w dsym_path with
   | StatOk =>
       inr (joinpath (joinpath (joinpath (joinpath dsym_path "Contents")
                                         "Resources") "DWARF") (name base))
   | StatError e =>
       if _ignore_error e
       then inl (FileNotFoundError ("Could not find DWARF file for " ++ str base))
       else inl (OSError e)
   | StatInvalid =>
       inl (FileNotFoundError ("Could not find DWARF file for " ++ str base))
   end,
   after_events w
     [EvFindDwarf base;
      EvLog lg ("Looking for DWARF file for " ++ str base ++ " @ " ++ str dsym_path);
      EvExists dsym_path]).
Proof.
  intros dsym_path.
  unfold _find_dwarf_file, path_exists, log_debug, emit, bind, modify, get, ret, raise.
  cbn -[parse str joinpath name append stat _ignore_error].
  fold dsym_path.
  change (stat _ dsym_path) with (stat w dsym_path).
  unfold after_events. rewrite <- !app_assoc. cbn [app].
  destruct (stat w dsym_path) as [|e|]; [reflexivity| |reflexivity].
  destruct (_ignore_error e); reflexivity.
Qed.

(** The two ways the look can go. *)
Lemma find_dwarf_file_found lg base w :
  let dsym_path := parse (str base ++ ".dSYM") in
  exists_in w dsym_path = true ->
  _find_dwarf_file lg base w =
  (inr (joinpath (joinpath (joinpath (joinpath dsym_path "Contents")
                                     "Resources") "DWARF") (name base)),
   after_events w
     [EvFindDwarf base;
      EvLog lg ("Looking for DWARF file for " ++ str base ++ " @ " ++ str dsym_path);
      EvExists dsym_path]).
Proof.
  intros dsym_path H. rewrite find_dwarf_file_run. fold dsym_path.
  now rewrite (exists_in_stat _ _ H).
Qed.

Lemma find_dwarf_file_missing lg base w :
  let dsym_path := parse (str base ++ ".dSYM") in
  exists_in w dsym_path = false ->
  exists e,
    _find_dwarf_file lg base w =
    (inl e,
     after_events w
       [EvFindDwarf base;
        EvLog lg ("Looking for DWARF file for " ++ str base ++ " @ " ++ str dsym_path);
        EvExists dsym_path])
    /\ ((exists msg, e = FileNotFoundError msg) \/ exists errno, e = OSError errno).
Proof.
  intros dsym_path H. rewrite find_dwarf_file_run. fold dsym_path.
  unfold exists_in in H.
  destruct (stat w dsym_path) as [|e|]; [discriminate| |eauto].
  destruct (_ignore_error e); eauto.
Qed.

Lemma joinpath_good (p : Path) (seg : string) :
  wf p -> good_part seg ->
  joinpath p seg = mkPath (root p) (parts p ++ [seg])
  /\ wf (mkPath (root p) (parts p ++ [seg])).
Proof.
  intros Hp Hs. split; [|now apply wf_snoc].
  rewrite joinpath_spec by (trivial; apply Hs).
  cbn [filter]. now rewrite (good_part_keep Hs).
Qed.

Lemma good_literal (x : string) :
  keep_part x = true -> contains sep x = false -> good_part x.
Proof.
  intros Hk Hx. unfold keep_part in Hk. apply andb_true_iff in Hk as [H1 H2].
  apply negb_true_iff in H1, H2. apply String.eqb_neq in H1, H2.
  now repeat split.
Qed.

(** The three fixed components below the bundle. *)
Lemma bundle_dirs (d : Path) :
  wf d ->
  joinpath (joinpath (joinpath d "Contents") "Resources") "DWARF"
  = mkPath (root d) (parts d ++ ["Contents"; "Resources"; "DWARF"])
  /\ wf (mkPath (root d) (parts d ++ ["Contents"; "Resources"; "DWARF"])).
Proof.
  intros Hd.
  destruct (@joinpath_good d "Contents" Hd) as [E1 W1];
    [now apply good_literal|].
  destruct (@joinpath_good _ "Resources" W1) as [E2 W2];
    [now apply good_literal|].
  destruct (@joinpath_good _ "DWARF" W2) as [E3 W3];
    [now apply good_literal|].
  cbn [root parts] in *. rewrite <- !app_assoc in *. cbn [app] in *.
  now rewrite E1, E2, E3.
Qed.

(** The path handed back is [<file>.dSYM/Contents/Resources/DWARF/<name>],
    read as a path. *)
Lemma discovered_path (base : Path) :
  wf base ->
  joinpath (joinpath (joinpath (joinpath (parse (str base ++ ".dSYM")) "Contents")
                               "Resources") "DWARF") (name base)
  = parse (str base ++ ".dSYM/Contents/Resources/DWARF/" ++ name base).
Proof.
  intros Hb.
  assert (Hlen : 3 <= String.length (str base ++ ".dSYM")).
  { rewrite sapp_length. cbn. lia. }
  pose proof (parse_wf (str base ++ ".dSYM")) as Hd.
  set (d := parse (str base ++ ".dSYM")) in *.
  destruct (bundle_dirs Hd) as [E W]. rewrite E.
  rewrite joinpath_spec by (trivial; now apply name_no_sep). cbn [root parts].
  change (str base ++ ".dSYM/Contents/Resources/DWARF/" ++ name base)
    with (str base ++ ".dSYM" ++ String sep ("Contents" ++ String sep
            ("Resources" ++ String sep ("DWARF" ++ String sep (name base))))).
  rewrite <- sapp_assoc, parse_app by assumption. fold d.
  rewrite !split_app, (split_no_sep (name base)) by now apply name_no_sep.
  cbn -[name]. rewrite <- !app_assoc. reflexivity.
Qed.

Lemma find_dwarf_file_checks_bundle_aux lg (base : Path) w :
  wf base ->
  fst (_find_dwarf_file lg base w) =
  match stat w (parse (str base ++ ".dSYM")) with
  | StatOk =>
      inr (parse (str base ++ ".dSYM/Contents/Resources/DWARF/" ++ name base))
  | StatError e =>
      if _ignore_error e
      then inl (FileNotFoundError ("Could not find DWARF file for " ++ str base))
      else inl (OSError e)
  | StatInvalid =>
      inl (FileNotFoundError ("Could not find DWARF file for " ++ str base))
  end.
Proof.
  intros Hb. rewrite find_dwarf_file_run. cbn [fst].
  now rewrite discovered_path.
Qed.

(** C1, as amended: _find_dwarf_file looks at the bundle path <file>.dSYM
    only, with one exists(). For every well-formed base path: when stat on
    <file>.dSYM succeeds it returns the path
    <file>.dSYM/Contents/Resources/DWARF/<name>, whether or not that path
    exists; when <file>.dSYM is absent (stat fails with ENOENT, ENOTDIR, EBADF
    or ELOOP, or the path cannot be encoded) it raises FileNotFoundError; when
    stat fails with any other error number, exists() raises that OSError and
    it propagates. *)
Theorem find_dwarf_file_checks_bundle lg (base : Path) w :
  wf base ->
  fst (_find_dwarf_file lg base w) =
  match stat w (parse (str base ++ ".dSYM")) with
  | StatOk =>
      inr (parse (str base ++ ".dSYM/Contents/Resources/DWARF/" ++ name base))
  | StatError e =>
      if _ignore_error e
      then inl (FileNotFoundError ("Could not find DWARF file for " ++ str base))
      else inl (OSError e)
  | StatInvalid =>
      inl (FileNotFoundError ("Could not find DWARF file for " ++ str base))
  end.
Proof. apply find_dwarf_file_checks_bundle_aux. Qed.

(** The components of the discovered path of a base file with a name. *)
Lemma sibling_shape (base : Path) (init : list string) (n : string) :
  wf base -> parts base = (init ++ [n])%list ->
  parse (str base ++ ".dSYM/Contents/Resources/DWARF/" ++ name base)
  = mkPath (root base)
      (init ++ [n ++ ".dSYM"; "Contents"; "Resources"; "DWARF"; n]).
Proof.
  intros Hb E. rewrite <- discovered_path by assumption.
  rewrite (@dsym_spec _ _ _ Hb E).
  assert (Hd : wf (mkPath (root base) (init ++ [n ++ ".dSYM"]))).
  { rewrite <- (@dsym_spec _ _ _ Hb E). apply parse_wf. }
  destruct (bundle_dirs Hd) as [-> W]. cbn [root parts] in *.
  assert (Hn : name base = n) by (unfold name; now rewrite E, last_last).
  assert (Gn : good_part n).
  { destruct Hb as [_ Hg]. rewrite E in Hg.
    apply Forall_app in Hg as [_ Hg]. now inversion Hg. }
  rewrite Hn. destruct (joinpath_good W Gn) as [-> _]. cbn [root parts].
  rewrite <- !app_assoc. reflexivity.
Qed.

Lemma sibling_str (base : Path) :
  wf base -> name base <> "" ->
  str (parse (str base ++ ".dSYM/Contents/Resources/DWARF/" ++ name base))
  = str base ++ ".dSYM/Contents/Resources/DWARF/" ++ name base.
Proof.
  intros Hb Hn.
  assert (Hp : parts base <> []).
  { intros E. apply Hn. unfold name. now rewrite E. }
  destruct (exists_last Hp) as (init & n & E).
  assert (Hname : name base = n) by (unfold name; now rewrite E, last_last).
  pose proof (parse_wf (str base ++ ".dSYM/Contents/Resources/DWARF/" ++ name base))
    as [_ Hg].
  rewrite (@sibling_shape _ _ _ Hb E) in *. cbn [parts] in Hg.
  rewrite str_nonempty_parts; cbn [root parts];
    [| now destruct init | assumption].
  rewrite (@str_nonempty_parts base) by (trivial; apply Hb).
  rewrite E, Hname.
  change (app init [n ++ ".dSYM"; "Contents"; "Resources"; "DWARF"; n])
    with (app init (app [n ++ ".dSYM"] (app ["Contents"] (app ["Resources"]
            (app ["DWARF"] [n]))))).
  rewrite !app_assoc.
  rewrite !join_snoc by (now destruct init).
  rewrite <- join_snoc_app.
  rewrite !sapp_assoc. reflexivity.
Qed.

(** Discovery on a base file whose DWARF file is in place. *)
Lemma find_dwarf_file_sibling lg (base : Path) w :
  wf base -> name base <> "" -> ancestor_closed w ->
  exists_in w (parse (str base ++ ".dSYM/Contents/Resources/DWARF/" ++ name base))
  = true ->
  fst (_find_dwarf_file lg base w)
  = inr (parse (str base ++ ".dSYM/Contents/Resources/DWARF/" ++ name base)).
Proof.
  intros Hb Hn Hw Hs. rewrite find_dwarf_file_checks_bundle_aux by assumption.
  assert (Hp : parts base <> []).
  { intros E. apply Hn. unfold name. now rewrite E. }
  destruct (exists_last Hp) as (init & n & E).
  rewrite (@sibling_shape _ _ _ Hb E) in *. rewrite (@dsym_spec _ _ _ Hb E).
  do 4 apply Hw in Hs. unfold parent in Hs. cbn [root parts] in Hs.
  repeat (rewrite removelast_app in Hs by discriminate; cbn [removelast] in Hs).
  now rewrite (exists_in_stat _ _ Hs).
Qed.

(** C2: for the base file foo.bin with a sibling
    foo.bin.dSYM/Contents/Resources/DWARF/foo.bin, in any file system where
    existing paths have existing parents, _find_dwarf_file returns exactly
    the path foo.bin.dSYM/Contents/Resources/DWARF/foo.bin. *)
Theorem find_dwarf_file_foo_bin lg w :
  ancestor_closed w ->
  exists_in w (parse "foo.bin.dSYM/Contents/Resources/DWARF/foo.bin") = true ->
  fst (_find_dwarf_file lg (parse "foo.bin") w)
  = inr (parse "foo.bin.dSYM/Contents/Resources/DWARF/foo.bin")
  /\ str (parse "foo.bin.dSYM/Contents/Resources/DWARF/foo.bin")
     = "foo.bin.dSYM/Contents/Resources/DWARF/foo.bin".
Proof.
  intros Hw Hs. split; [|reflexivity].
  apply (@find_dwarf_file_sibling lg (parse "foo.bin") w);
    [apply parse_wf | discriminate | assumption | exact Hs].
Qed.

(** *** Construction *)

(** [__init__] with a base file, step by step. *)
Lemma init_run (base : Path) (dwarf ta : option Path) w :
  let lg := getChild ("DwarfImporter[" ++ name base ++ "]") in
  let w1 := after_events w [EvInit] in
  __init__ host (Some base) dwarf ta w =
  match (match dwarf with
         | Some d => (inr d, w1)
         | None => _find_dwarf_file lg base w1
         end) with
  | (inl e, w2) => (inl e, w2)
  | (inr d, w2) =>
      match ta with
      | Some t => (inr (mkDwarfImporter base d t lg None false), w2)
      | None =>
          match with_suffix base ".bntl" with
          | inr t => (inr (mkDwarfImporter base d t lg None false), w2)
          | inl msg => (inl (ValueError msg), w2)
          end
      end
  end.
Proof.
  intros lg w1.
  unfold __init__, bind, emit, modify, ret, raise, or_else, not_path.
  fold lg. change (mkWorld (fs w) (disk w) (trace w ++ [EvInit])) with w1.
  destruct dwarf as [d|].
  - destruct ta as [t|]; [reflexivity|].
    destruct (with_suffix base ".bntl"); reflexivity.
  - destruct (_find_dwarf_file lg base w1) as [[e|d] w2]; [reflexivity|].
    destruct ta as [t|]; [reflexivity|].
    destruct (with_suffix base ".bntl"); reflexivity.
Qed.

(** C3: when __init__ is given a base file and an explicit dwarf_file, the
    only effect of the construction is its own entry: _find_dwarf_file is not
    called and no path is looked up. The instance's dwarf_file is the given
    path; the construction can only fail in the default of type_archive, for
    a base path without a name. *)
Theorem init_explicit_dwarf_file (base dwarf : Path) (ta : option Path) w :
  snd (__init__ host (Some base) (Some dwarf) ta w) = after_events w [EvInit]
  /\ match fst (__init__ host (Some base) (Some dwarf) ta w) with
     | inr imp => dwarf_file imp = dwarf /\ base_file imp = base
     | inl e => ta = None /\ name base = "" /\ exists msg, e = ValueError msg
     end.
Proof.
  rewrite init_run. destruct ta as [t|]; [now split|].
  destruct (string_dec (name base) "") as [Hn|Hn].
  - destruct (@with_suffix_no_name base ".bntl" Hn) as [msg ->].
    cbn. repeat split; eauto.
  - rewrite (@with_suffix_bntl base Hn). now split.
Qed.


(** C8: when __init__ gets no type_archive, a construction that completes
    has set type_archive to the base path with the suffix of its name
    replaced by .bntl: same root, same parent, name = stem + .bntl where the
    base name is stem + suffix; its string ends in .bntl. The construction
    fails only for a base path without a name or when discovery fails. For
    foo.bin the default is foo.bntl, not foo.bin.bntl. *)
Theorem init_default_type_archive (base : Path) (dwarf : option Path) w :
  match fst (__init__ host (Some base) dwarf None w) with
  | inr imp =>
      root (type_archive imp) = root base
      /\ parent (type_archive imp) = parent base
      /\ (exists stem, name base = stem ++ suffix base
                       /\ name (type_archive imp) = stem ++ ".bntl")
      /\ endswith (str (type_archive imp)) ".bntl" = true
  | inl _ =>
      name base = ""
      \/ (dwarf = None /\ exists_in w (parse (str base ++ ".dSYM")) = false)
  end
  /\ match fst (__init__ host (Some (parse "foo.bin")) (Some (parse "foo.dwarf"))
                         None w) with
     | inr imp => type_archive imp = parse "foo.bntl"
                  /\ type_archive imp <> parse "foo.bin.bntl"
     | inl _ => False
     end.
Proof.
  split.
  - rewrite init_run.
    assert (D : match with_suffix base ".bntl" with
                | inr t =>
                    root t = root base
                    /\ parent t = parent base
                    /\ (exists stem, name base = stem ++ suffix base
                                     /\ name t = stem ++ ".bntl")
                    /\ endswith (str t) ".bntl" = true
                | inl _ => name base = ""
                end).
    { destruct (string_dec (name base) "") as [Hn|Hn].
      - now destruct (@with_suffix_no_name base ".bntl" Hn) as [msg ->].
      - rewrite (@with_suffix_bntl base Hn). cbn [root].
        repeat split.
        + unfold parent. cbn [root parts]. now rewrite removelast_last.
        + eexists. split; [symmetry; apply suffix_of_stem|].
          unfold name at 1. cbn [parts]. now rewrite last_last.
        + apply str_snoc_endswith. }
    destruct dwarf as [d|].
    + destruct (with_suffix base ".bntl"); cbn [fst type_archive]; auto.
    + destruct (exists_in w (parse (str base ++ ".dSYM"))) eqn:Ex.
      * rewrite find_dwarf_file_found by exact Ex.
        destruct (with_suffix base ".bntl"); cbn [fst type_archive]; auto.
      * destruct (@find_dwarf_file_missing
                    (getChild ("DwarfImporter[" ++ name base ++ "]")) base
                    (after_events w [EvInit]) Ex) as (e & -> & _).
        cbn [fst]. right. now split.
  - rewrite init_run. cbn -[after_events getChild]. split; [reflexivity | discriminate].
Qed.

(** *** The command line *)

(** C4: for every command line on which parse_args hands back a
    --type-library value, whatever the other arguments, when the path of that
    value does not end in .bntl, main ends with the error of the argument
    parser (exit status 2) and the world is untouched: no importer was
    constructed, no path looked up, nothing loaded, analysed or written. *)
Theorem main_rejects_extension (argv : list string) (BASE_FILE : string)
    (dwarf_file : option string) (type_library : string) w :
  parse_args argv = inr (mkNamespace BASE_FILE dwarf_file (Some type_library)) ->
  endswith (str (parse type_library)) ".bntl" = false ->
  main arch_name host parse_args argv w
  = (inl (SystemExit 2 "TYPE_ARCHIVE must have a .bntl extension."), w).
Proof.
  intros Hp H. unfold main. rewrite Hp. unfold bind.
  cbn [option_map args_type_library].
  destruct (String.eqb_spec (suffix (parse type_library)) ".bntl") as [E|E].
  - assert (Hs : suffix (parse type_library) <> "") by (rewrite E; discriminate).
    apply suffix_endswith in Hs. rewrite E in Hs. congruence.
  - reflexivity.
Qed.

(** *** Import and export *)

Lemma bind_ok {S A B} (c : M S A) (k : A -> M S B) (s s' : S) (a : A) :
  c s = (inr a, s') -> bind c k s = k a s'.
Proof. intros H. unfold bind. now rewrite H. Qed.

Lemma bind_raise {S A B} (c : M S A) (k : A -> M S B) (s s' : S) (e : exn) :
  c s = (inl e, s') -> bind c k s = (inl e, s').
Proof. intros H. unfold bind. now rewrite H. Qed.

Lemma base_binaryview_cached o w (v : BinaryView Ty Arch Platform) :
  cached_base_binaryview o = Some v ->
  base_binaryview host (o, w) = (inr v, (o, w)).
Proof.
  intros H. unfold base_binaryview, bind, self. cbn [fst]. now rewrite H.
Qed.

Lemma import_debug_info_memo o w :
  import_debug_info_cached o = true ->
  import_debug_info host (o, w) = (inr tt, (o, w)).
Proof.
  intros H. unfold import_debug_info, bind, self. cbn [fst]. now rewrite H.
Qed.

(** A call that returns leaves the entry of the cache behind. *)
Lemma import_debug_info_sets_cache (s s' : DwarfImporter Ty Arch Platform * World Ty Arch Platform) :
  import_debug_info host s = (inr tt, s') ->
  import_debug_info_cached (fst s') = true.
Proof.
  unfold import_debug_info, bind, self.
  destruct (import_debug_info_cached (fst s)) eqn:C.
  - unfold ret. now intros [= <-].
  - destruct (import_debug_info_body host s) as [[e|[]] s1]; [discriminate|].
    unfold update_self, modify. now intros [= <-].
Qed.

Lemma import_debug_info_again (s s' : DwarfImporter Ty Arch Platform * World Ty Arch Platform) :
  import_debug_info host s = (inr tt, s') ->
  import_debug_info host s' = (inr tt, s').
Proof.
  intros H. apply import_debug_info_sets_cache in H.
  destruct s' as [o' w']. now apply import_debug_info_memo.
Qed.

(** [export_type_library] starts with the import, and after a completed
    import it is the export of the instance the import left. *)
Lemma export_after_import out (s s' : DwarfImporter Ty Arch Platform * World Ty Arch Platform) :
  import_debug_info host s = (inr tt, s') ->
  export_type_library arch_name host out s
  = export_type_library arch_name host out s'.
Proof.
  intros H. unfold export_type_library.
  rewrite (@bind_ok _ _ _ _ _ _ _ _ H).
  rewrite (@bind_ok _ _ _ _ _ _ _ _ (@import_debug_info_again _ _ H)). reflexivity.
Qed.

Lemma export_import_raises out (s s' : DwarfImporter Ty Arch Platform * World Ty Arch Platform) e :
  import_debug_info host s = (inl e, s') ->
  export_type_library arch_name host out s = (inl e, s').
Proof. intros H. unfold export_type_library. now rewrite (@bind_raise _ _ _ _ _ _ _ _ H). Qed.

Lemma fold_add_named_type (l : list (string * Ty)) a n ps alts ts objs :
  fold_left (fun lib item => add_named_type (fst item) (snd item) lib) l
    (mkTypeLibrary (Arch := Arch) (Platform := Platform) a n ps alts ts objs)
  = mkTypeLibrary a n ps alts (ts ++ l) objs.
Proof.
  revert ts. induction l as [|[x t] l IH]; intros ts; cbn.
  - now rewrite app_nil_r.
  - unfold add_named_type at 2. cbn. rewrite IH, <- app_assoc. reflexivity.
Qed.

Lemma fold_add_named_object (l : list (Function Ty)) a n ps alts ts objs :
  fold_left (fun lib f => add_named_object (fn_name f) (fn_type f) lib) l
    (mkTypeLibrary (Arch := Arch) (Platform := Platform) a n ps alts ts objs)
  = mkTypeLibrary a n ps alts ts (objs ++ map (@signature Ty) l).
Proof.
  revert objs. induction l as [|f l IH]; intros objs; cbn.
  - now rewrite app_nil_r.
  - unfold add_named_object at 2. cbn. rewrite IH, <- app_assoc. reflexivity.
Qed.

(** The loop over the types: one log line and one registration each. *)
Lemma types_loop (l : list (string * Ty)) (lib : TypeLibrary Ty Arch Platform) o w :
  for_each_on l lib
    (fun item lib =>
       bind self (fun o' =>
       bind (in_world (log_debug (logger o')
               ("Adding type " ++ fst item ++ " to type library")))
            (fun _ => ret (add_named_type (fst item) (snd item) lib))))
    (o, w)
  = (inr (fold_left (fun lib item => add_named_type (fst item) (snd item) lib) l lib),
     (o, after_events w (type_logs (logger o) l))).
Proof.
  revert lib w. induction l as [|item l IH]; intros lib w.
  - cbn. now rewrite after_events_nil.
  - cbn [for_each_on fold_left type_logs map].
    unfold bind at 1. unfold bind at 1. unfold self at 1. cbn [fst].
    unfold bind at 1. unfold in_world, log_debug, emit, modify, ret at 1.
    cbn [snd fst]. unfold ret at 1.
    change (mkWorld (fs w) (disk w) (trace w ++ [EvLog (logger o) ("Adding type " ++ fst item ++ " to type library")]))
      with (after_events w [EvLog (logger o) ("Adding type " ++ fst item ++ " to type library")]).
    rewrite IH, after_events_app. reflexivity.
Qed.

Lemma functions_loop (l : list (Function Ty)) (lib : TypeLibrary Ty Arch Platform) o w :
  for_each_on l lib
    (fun function lib =>
       bind self (fun o' =>
       bind (in_world (log_debug (logger o')
               ("Adding function " ++ fn_name function ++ " to type library")))
            (fun _ => ret (add_named_object (fn_name function) (fn_type function) lib))))
    (o, w)
  = (inr (fold_left (fun lib f => add_named_object (fn_name f) (fn_type f) lib) l lib),
     (o, after_events w (function_logs (logger o) l))).
Proof.
  revert lib w. induction l as [|f l IH]; intros lib w.
  - cbn. now rewrite after_events_nil.
  - cbn [for_each_on fold_left function_logs map].
    unfold bind at 1. unfold bind at 1. unfold self at 1. cbn [fst].
    unfold bind at 1. unfold in_world, log_debug, emit, modify, ret at 1.
    cbn [snd fst]. unfold ret at 1.
    change (mkWorld (fs w) (disk w) (trace w ++ [EvLog (logger o) ("Adding function " ++ fn_name f ++ " to type library")]))
      with (after_events w [EvLog (logger o) ("Adding function " ++ fn_name f ++ " to type library")]).
    rewrite IH, after_events_app. reflexivity.
Qed.

Lemma bind_ret {S A B} (a : A) (k : A -> M S B) (s : S) :
  bind (ret a) k s = k a s.
Proof. reflexivity. Qed.

Lemma in_world_emit o w (e : Event Ty Arch Platform) :
  in_world (emit e) (o, w) = (inr tt, (o, after_events w [e])).
Proof. reflexivity. Qed.

Lemma self_run o w : self (o, w) = (inr o, (o, w)).
Proof. reflexivity. Qed.

(** [export_type_library] on an instance whose import is done and whose
    view is kept: every outcome. *)
Lemma export_cached out o w (view : BinaryView Ty Arch Platform) :
  import_debug_info_cached o = true ->
  cached_base_binaryview o = Some view ->
  export_type_library arch_name host out (o, w) =
  match bv_arch view, bv_platform view with
  | Some a, Some p =>
      let filename := name (parse (bv_filename view)) in
      let lib_name := filename ++ "_" ++ arch_name a ++ "_types" in
      let lib := mkTypeLibrary a lib_name [p] [filename] (bv_types view)
                   (map (@signature Ty) (bv_functions view)) in
      let path := str (match out with Some q => q | None => type_archive o end) in
      let w1 := after_events w
                  (EvNewLibrary lib_name
                   :: type_logs (logger o) (bv_types view)
                   ++ function_logs (logger o) (bv_functions view)
                   ++ [EvFinalize]) in
      if host_finalize host lib
      then (inr tt, (o, mkWorld (fs w1) ((path, lib) :: disk w1)
                          (trace w1 ++ [EvWrite path lib])))
      else (inl AssertionError, (o, w1))
  | _, _ => (inl AssertionError, (o, w))
  end.
Proof.
  intros Hc Hv. unfold export_type_library.
  rewrite (@bind_ok _ _ _ _ _ _ _ _ (@import_debug_info_memo o w Hc)).
  rewrite (@bind_ok _ _ _ _ _ _ _ _ (@base_binaryview_cached o w _ Hv)).
  rewrite (@bind_ok _ _ _ _ _ _ _ _ (@base_binaryview_cached o w _ Hv)).
  cbv zeta.
  destruct (bv_arch view) as [a|]; [|now destruct (bv_platform view)].
  rewrite (@bind_ok _ _ _ _ _ _ _ _ (@base_binaryview_cached o w _ Hv)).
  destruct (bv_platform view) as [p|] eqn:Hp; [|reflexivity].
  cbn [is_some py_assert arch_str]. rewrite bind_ret.
  rewrite (@bind_ok _ _ _ _ _ _ _ _ (in_world_emit o w _)).
  rewrite (@bind_ok _ _ _ _ _ _ _ _ (@base_binaryview_cached o _ _ Hv)).
  rewrite Hp, bind_ret.
  rewrite (@bind_ok _ _ _ _ _ _ _ _ (@base_binaryview_cached o _ _ Hv)).
  unfold add_platform, add_alternate_name.
  cbn [tl_arch tl_name tl_platforms tl_alternate_names tl_named_types
       tl_named_objects app].
  rewrite (@bind_ok _ _ _ _ _ _ _ _ (types_loop _ _ o _)).
  rewrite fold_add_named_type. cbn [app].
  rewrite (@bind_ok _ _ _ _ _ _ _ _ (@base_binaryview_cached o _ _ Hv)).
  rewrite (@bind_ok _ _ _ _ _ _ _ _ (functions_loop _ _ o _)).
  rewrite fold_add_named_object. cbn [app].
  rewrite (@bind_ok _ _ _ _ _ _ _ _ (in_world_emit o _ _)).
  rewrite !after_events_app. cbn [app]. rewrite <- ?app_assoc.
  destruct (host_finalize host _).
  - cbn [py_assert]. rewrite bind_ret.
    rewrite (@bind_ok _ _ _ _ _ _ _ _ (self_run o _)).
    destruct out as [q|]; cbn [or_else]; rewrite bind_ret; reflexivity.
  - reflexivity.
Qed.

(** The import touches the kept view and the cache entry, and none of the
    four attributes. *)
Lemma import_debug_info_attributes o w r o' w' :
  import_debug_info host (o, w) = (r, (o', w')) ->
  base_file o' = base_file o /\ dwarf_file o' = dwarf_file o
  /\ type_archive o' = type_archive o /\ logger o' = logger o.
Proof.
  unfold import_debug_info, import_debug_info_body, base_binaryview, bn_load,
    of_host, in_world, update_self, self, bind, emit, modify, ret, raise.
  cbn [fst snd].
  destruct (import_debug_info_cached o); [now intros [= <- <- <-]|].
  repeat match goal with
         | |- context [match ?x with _ => _ end] =>
             match type of x with
             | option _ => destruct x; cbn [fst snd set_view set_cached
                             cached_base_binaryview]
             end
         end;
    intros [= <- <- <-]; cbn; auto.
Qed.

(** The export after a completed import, on a host that provides the
    architecture and the platform and finalizes the library. *)
Lemma export_run out o w o1 w1 (view : BinaryView Ty Arch Platform) a p :
  import_debug_info host (o, w) = (inr tt, (o1, w1)) ->
  cached_base_binaryview o1 = Some view ->
  bv_arch view = Some a -> bv_platform view = Some p ->
  host_finalize host (library_of arch_name view a p) = true ->
  let lib := library_of arch_name view a p in
  let w2 := after_events w1
              (EvNewLibrary (tl_name lib)
               :: type_logs (logger o1) (bv_types view)
               ++ function_logs (logger o1) (bv_functions view)
               ++ [EvFinalize]) in
  export_type_library arch_name host out (o, w)
  = (inr tt, (o1, mkWorld (fs w2) ((output_path out o1, lib) :: disk w2)
                    (trace w2 ++ [EvWrite (output_path out o1) lib]))).
Proof.
  intros Hi Hv Ha Hp Hf lib w2.
  rewrite (@export_after_import out _ _ Hi).
  rewrite (@export_cached out o1 w1 view
             (@import_debug_info_sets_cache _ _ Hi) Hv).
  rewrite Ha, Hp. cbv zeta. unfold library_of in Hf. rewrite Hf. reflexivity.
Qed.

(** C6: once the import has completed, export_type_library creates a new
    library, registers every named type of the view under its name and the
    signature of every function under the function's name, in the order of
    the view, and then writes that library to the output path: the write is
    the last event, and the file on disk holds the library. *)
Theorem export_type_library_registers out o w o1 w1
    (view : BinaryView Ty Arch Platform) a p :
  import_debug_info host (o, w) = (inr tt, (o1, w1)) ->
  cached_base_binaryview o1 = Some view ->
  bv_arch view = Some a -> bv_platform view = Some p ->
  host_finalize host (library_of arch_name view a p) = true ->
  exists lib w2 evs,
    export_type_library arch_name host out (o, w) = (inr tt, (o1, w2))
    /\ tl_named_types lib = bv_types view
    /\ tl_named_objects lib
       = map (fun f => (fn_name f, fn_type f)) (bv_functions view)
    /\ trace w2
       = (trace w1 ++ EvNewLibrary (tl_name lib) :: evs
          ++ [EvWrite (output_path out o1) lib])%list
    /\ disk w2 = (output_path out o1, lib) :: disk w1.
Proof.
  intros Hi Hv Ha Hp Hf.
  pose proof (@export_run out _ _ _ _ _ _ _ Hi Hv Ha Hp Hf) as E. cbv zeta in E.
  exists (library_of arch_name view a p). eexists.
  exists (type_logs (logger o1) (bv_types view)
          ++ function_logs (logger o1) (bv_functions view) ++ [EvFinalize])%list.
  split; [exact E|].
  cbn [trace disk after_events].
  split; [reflexivity|]. split; [reflexivity|]. split; [|reflexivity].
  now rewrite <- app_assoc.
Qed.

(** C9: outside main no extension is checked. __init__ keeps whatever
    type_archive it is given, and export_type_library writes to the path it
    is given, or to the kept type_archive, whatever their suffix. *)
Theorem extension_checked_only_by_main :
  (forall (base dwarf ta : Path) w,
     __init__ host (Some base) (Some dwarf) (Some ta) w
     = (inr (mkDwarfImporter base dwarf ta
               (getChild ("DwarfImporter[" ++ name base ++ "]")) None false),
        after_events w [EvInit]))
  /\ (forall out o w o1 w1 (view : BinaryView Ty Arch Platform) a p,
        import_debug_info host (o, w) = (inr tt, (o1, w1)) ->
        cached_base_binaryview o1 = Some view ->
        bv_arch view = Some a -> bv_platform view = Some p ->
        host_finalize host (library_of arch_name view a p) = true ->
        exists lib w2,
          export_type_library arch_name host out (o, w) = (inr tt, (o1, w2))
          /\ disk w2
             = (str (match out with Some q => q | None => type_archive o end), lib)
               :: disk w1).
Proof.
  split.
  - intros base dwarf ta w. now rewrite init_run.
  - intros out o w o1 w1 view a p Hi Hv Ha Hp Hf.
    pose proof (@export_run out _ _ _ _ _ _ _ Hi Hv Ha Hp Hf) as E. cbv zeta in E.
    destruct (@import_debug_info_attributes _ _ _ _ _ Hi) as (_ & _ & Ht & _).
    eexists _, _. split; [exact E|].
    cbn [disk after_events]. unfold output_path. now rewrite Ht.
Qed.

(** C10: export_type_library with an output_file writes the library to that
    path, and without one to the kept type_archive; the kept type_archive is
    the same before and after the call. *)
Theorem export_output_file out o w o1 w1 (view : BinaryView Ty Arch Platform) a p :
  import_debug_info host (o, w) = (inr tt, (o1, w1)) ->
  cached_base_binaryview o1 = Some view ->
  bv_arch view = Some a -> bv_platform view = Some p ->
  host_finalize host (library_of arch_name view a p) = true ->
  exists lib w2,
    export_type_library arch_name host out (o, w) = (inr tt, (o1, w2))
    /\ type_archive o1 = type_archive o
    /\ disk w2
       = (match out with
          | Some q => str q
          | None => str (type_archive o)
          end, lib) :: disk w1
    /\ exists evs, trace w2
         = (trace w1 ++ evs
            ++ [EvWrite (match out with
                         | Some q => str q
                         | None => str (type_archive o)
                         end) lib])%list.
Proof.
  intros Hi Hv Ha Hp Hf.
  pose proof (@export_run out _ _ _ _ _ _ _ Hi Hv Ha Hp Hf) as E. cbv zeta in E.
  destruct (@import_debug_info_attributes _ _ _ _ _ Hi) as (_ & _ & Ht & _).
  eexists _, _. split; [exact E|]. split; [exact Ht|].
  cbn [disk trace after_events]. unfold output_path. rewrite Ht.
  split; [now destruct out|].
  exists (EvNewLibrary (tl_name (library_of arch_name view a p))
          :: type_logs (logger o1) (bv_types view)
          ++ function_logs (logger o1) (bv_functions view) ++ [EvFinalize])%list.
  rewrite <- app_assoc. now destruct out.
Qed.

(** *** Memoization *)

Lemma filter_type_logs lg (l : list (string * Ty)) :
  filter (@is_import_event Ty Arch Platform) (type_logs lg l) = [].
Proof. induction l; [reflexivity | assumption]. Qed.

Lemma filter_function_logs lg (l : list (Function Ty)) :
  filter (@is_import_event Ty Arch Platform) (function_logs lg l) = [].
Proof. induction l; [reflexivity | assumption]. Qed.

(** The first call on a fresh instance: the events of the sequence come in
    order and stop where the host raises; a call that returns has run the
    whole sequence and left the view and the cache entry. *)
Lemma import_debug_info_fresh (b d t : Path) lg w :
  exists r o' added,
    import_debug_info host (mkDwarfImporter b d t lg None false, w)
    = (r, (o', after_events w added))
    /\ match r with
       | inr _ =>
           filter (@is_import_event Ty Arch Platform) added = import_sequence b d
           /\ import_debug_info_cached o' = true
           /\ exists v, cached_base_binaryview o' = Some v
       | inl _ =>
           exists rest,
             import_sequence b d
             = (filter (@is_import_event Ty Arch Platform) added ++ rest)%list
       end.
Proof.
  unfold import_debug_info, import_debug_info_body, base_binaryview, bn_load,
    of_host, in_world, update_self, self, bind, emit, modify, ret, raise,
    after_events, import_sequence.
  cbn [fst snd import_debug_info_cached cached_base_binaryview base_file
       dwarf_file].
  destruct (host_load host (str d) []) as [dv|];
    cbn [fst snd set_view set_cached cached_base_binaryview base_file
         dwarf_file fs disk trace].
  2:{ exists (inl (PlatformError "load")). eexists.
      exists [EvLoad (str d) []]. split; [reflexivity|]. cbn. eauto. }
  destruct (host_load host (str b) [("corePlugins.dwarfImport", true)]) as [bv0|];
    cbn [fst snd set_view set_cached cached_base_binaryview base_file
         dwarf_file fs disk trace].
  2:{ exists (inl (PlatformError "load")). eexists.
      exists [EvLoad (str d) []; EvLoad (str b) [("corePlugins.dwarfImport", true)]].
      split; [now rewrite <- app_assoc|]. cbn. eauto. }
  destruct (host_parse_debug_info host bv0 dv) as [di|];
    cbn [fst snd set_view set_cached cached_base_binaryview base_file
         dwarf_file fs disk trace].
  2:{ exists (inl (PlatformError "parse_debug_info")). eexists.
      exists [EvLoad (str d) []; EvLoad (str b) [("corePlugins.dwarfImport", true)];
              EvParse].
      split; [now rewrite <- !app_assoc|]. cbn. eauto. }
  destruct (host_apply_debug_info host bv0 di) as [bv1|];
    cbn [fst snd set_view set_cached cached_base_binaryview base_file
         dwarf_file fs disk trace].
  2:{ exists (inl (PlatformError "apply_debug_info")). eexists.
      exists [EvLoad (str d) []; EvLoad (str b) [("corePlugins.dwarfImport", true)];
              EvParse; EvApply].
      split; [now rewrite <- !app_assoc|]. cbn. eauto. }
  destruct (host_update_analysis_and_wait host bv1) as [bv2|];
    cbn [fst snd set_view set_cached cached_base_binaryview base_file
         dwarf_file fs disk trace].
  2:{ exists (inl (PlatformError "update_analysis_and_wait")). eexists.
      exists [EvLoad (str d) []; EvLoad (str b) [("corePlugins.dwarfImport", true)];
              EvParse; EvApply; EvAnalyze].
      split; [now rewrite <- !app_assoc|]. cbn. exists []. reflexivity. }
  exists (inr tt). eexists.
  exists [EvLoad (str d) []; EvLoad (str b) [("corePlugins.dwarfImport", true)];
          EvParse; EvApply; EvAnalyze].
  split; [now rewrite <- !app_assoc|]. cbn. eauto.
Qed.

(** A call on an instance whose import is done: no event of the sequence,
    and the instance stays as it is. *)
Lemma run_call_done c o w (v : BinaryView Ty Arch Platform) :
  import_debug_info_cached o = true ->
  cached_base_binaryview o = Some v ->
  exists r w' added,
    run_call arch_name host c (o, w) = (r, (o, w'))
    /\ trace w' = (trace w ++ added)%list
    /\ filter (@is_import_event Ty Arch Platform) added = [].
Proof.
  intros Hc Hv. destruct c as [|out]; cbn [run_call].
  - exists (inr tt), w, []. rewrite (@import_debug_info_memo o w Hc).
    now rewrite app_nil_r.
  - rewrite (@export_cached out o w v Hc Hv).
    destruct (bv_arch v) as [a|], (bv_platform v) as [p|];
      try (exists (inl AssertionError), w, []; now rewrite app_nil_r).
    cbv zeta.
    destruct (host_finalize host _).
    + eexists _, _, _. split; [reflexivity|]. cbn [trace after_events].
      split; [now rewrite <- app_assoc|].
      cbn [filter is_import_event app].
      rewrite !filter_app, filter_type_logs, filter_function_logs. reflexivity.
    + eexists _, _, _. split; [reflexivity|]. cbn [trace after_events].
      split; [reflexivity|].
      cbn [filter is_import_event app].
      rewrite !filter_app, filter_type_logs, filter_function_logs. reflexivity.
Qed.

Lemma run_calls_done calls o w (v : BinaryView Ty Arch Platform) :
  import_debug_info_cached o = true ->
  cached_base_binaryview o = Some v ->
  exists r w' added,
    run_calls arch_name host calls (o, w) = (r, (o, w'))
    /\ trace w' = (trace w ++ added)%list
    /\ filter (@is_import_event Ty Arch Platform) added = [].
Proof.
  intros Hc Hv. revert w. induction calls as [|c calls IH]; intros w.
  - exists (inr tt), w, []. now rewrite app_nil_r.
  - cbn [run_calls].
    destruct (@run_call_done c o w v Hc Hv) as (r & w1 & added1 & E1 & T1 & F1).
    destruct r as [e|[]].
    + exists (inl e), w1, added1. now rewrite (@bind_raise _ _ _ _ _ _ _ _ E1).
    + rewrite (@bind_ok _ _ _ _ _ _ _ _ E1).
      destruct (IH w1) as (r & w2 & added2 & E2 & T2 & F2).
      exists r, w2, (added1 ++ added2)%list. split; [exact E2|].
      rewrite T2, T1, <- app_assoc, filter_app, F1, F2. now split.
Qed.

(** C7, as amended: import_debug_info is memoized per instance once it has
    returned. A call that follows a call that returned does nothing: it
    returns at once and leaves the instance and the world as they are. Over
    any sequence of calls of import_debug_info and export_type_library on a
    fresh instance in which the first exception ends the sequence (nothing
    catches it, as in the script), the load, parse, apply and analyze events
    that happen form a prefix of one sequence: each happens at most once.
    functools.cache keeps no entry for a call that raised, so nothing of the
    kind holds for a caller that catches the exception and calls again. *)
Theorem import_debug_info_once :
  (forall s s' : DwarfImporter Ty Arch Platform * World Ty Arch Platform,
     import_debug_info host s = (inr tt, s') ->
     import_debug_info host s' = (inr tt, s'))
  /\ (forall (b d t : Path) lg w calls,
        exists added rest,
          trace (snd (snd (run_calls arch_name host calls
                             (mkDwarfImporter b d t lg None false, w))))
          = (trace w ++ added)%list
          /\ import_sequence b d
             = (filter (@is_import_event Ty Arch Platform) added ++ rest)%list).
Proof.
  split; [exact import_debug_info_again|].
  intros b d t lg w [|c calls].
  - exists [], (import_sequence b d). cbn. now rewrite app_nil_r.
  - destruct (import_debug_info_fresh b d t lg w) as (r & o' & added & E & H).
    destruct r as [e|[]].
    + destruct H as [rest H]. exists added, rest. split; [|exact H].
      cbn [run_calls]. destruct c as [|out]; cbn [run_call].
      * now rewrite (@bind_raise _ _ _ _ _ _ _ _ E).
      * now rewrite (@bind_raise _ _ _ _ _ _ _ _
                       (@export_import_raises out _ _ _ E)).
    + destruct H as (F & Hc & v & Hv).
      assert (R : exists calls',
                 run_calls arch_name host (c :: calls)
                   (mkDwarfImporter b d t lg None false, w)
                 = run_calls arch_name host calls' (o', after_events w added)).
      { destruct c as [|out].
        - exists calls. cbn [run_calls run_call].
          now rewrite (@bind_ok _ _ _ _ _ _ _ _ E).
        - exists (CallExport out :: calls). cbn [run_calls run_call].
          unfold bind. now rewrite (@export_after_import out _ _ E). }
      destruct R as [calls' ->].
      destruct (@run_calls_done calls' o' (after_events w added) v Hc Hv)
        as (r & w2 & added2 & E2 & T2 & F2).
      rewrite E2. cbn [snd]. exists (added ++ added2)%list, [].
      rewrite T2. cbn [trace after_events].
      rewrite <- app_assoc, filter_app, F, F2, !app_nil_r. now split.
Qed.

(** *** Worlds given by a list of paths *)

Lemma path_eqb_true (p q : Path) : path_eqb p q = true -> p = q.
Proof. unfold path_eqb. now destruct (Path_eq_dec p q). Qed.

Lemma world_of_ancestor_closed (l : list Path) :
  forallb (fun p => existsb (path_eqb (parent p)) l) l = true ->
  ancestor_closed (@world_of Ty Arch Platform l).
Proof.
  intros H p Hp. unfold exists_in, stat, world_of in *.
  cbn [fs disk existsb] in *.
  destruct (existsb (path_eqb p) l) eqn:Ep; [|discriminate].
  apply existsb_exists in Ep as (q & Hq & E).
  apply path_eqb_true in E. subst q.
  rewrite forallb_forall in H. now rewrite (H p Hq).
Qed.

End ProgramFacts.

(** ** The program on the concrete host *)

(** C1, the claim as stated fails: in a directory that holds the bundle
    foo.bin.dSYM and nothing in it, the path
    foo.bin.dSYM/Contents/Resources/DWARF/foo.bin is absent, and
    _find_dwarf_file returns it all the same, without raising. *)
Lemma find_dwarf_file_sibling_absent :
  ancestor_closed Demo.empty_bundle
  /\ exists_in Demo.empty_bundle
       (parse "foo.bin.dSYM/Contents/Resources/DWARF/foo.bin") = false
  /\ fst (_find_dwarf_file "binaryninja-dwarf.DwarfImporter[foo.bin]"
            (parse "foo.bin") Demo.empty_bundle)
     = inr (parse "foo.bin.dSYM/Contents/Resources/DWARF/foo.bin").
Proof.
  split; [apply world_of_ancestor_closed; vm_compute; reflexivity|].
  split; vm_compute; reflexivity.
Qed.

Lemma find_dwarf_file_checks_bundle_witness :
  wf (parse "foo.bin")
  /\ fst (_find_dwarf_file "binaryninja-dwarf.DwarfImporter[foo.bin]"
            (parse "foo.bin") Demo.empty_bundle)
     = inr (parse "foo.bin.dSYM/Contents/Resources/DWARF/foo.bin").
Proof.
  split; [apply parse_wf|].
  exact (@find_dwarf_file_checks_bundle _ _ _
           "binaryninja-dwarf.DwarfImporter[foo.bin]" (parse "foo.bin")
           Demo.empty_bundle (parse_wf "foo.bin")).
Defined.

Lemma find_dwarf_file_foo_bin_witness :
  ancestor_closed Demo.full_bundle
  /\ exists_in Demo.full_bundle
       (parse "foo.bin.dSYM/Contents/Resources/DWARF/foo.bin") = true
  /\ fst (_find_dwarf_file "binaryninja-dwarf.DwarfImporter[foo.bin]"
            (parse "foo.bin") Demo.full_bundle)
     = inr (parse "foo.bin.dSYM/Contents/Resources/DWARF/foo.bin").
Proof.
  assert (A : ancestor_closed Demo.full_bundle)
    by (apply world_of_ancestor_closed; vm_compute; reflexivity).
  assert (E : exists_in Demo.full_bundle
                (parse "foo.bin.dSYM/Contents/Resources/DWARF/foo.bin") = true)
    by (vm_compute; reflexivity).
  split; [exact A|]. split; [exact E|].
  exact (proj1 (@find_dwarf_file_foo_bin _ _ _
                  "binaryninja-dwarf.DwarfImporter[foo.bin]" Demo.full_bundle A E)).
Defined.

Lemma main_rejects_extension_witness :
  Demo.parse_args ["foo.bin"; "--type-library"; "out.txt"]
  = inr (mkNamespace "foo.bin" None (Some "out.txt"))
  /\ endswith (str (parse "out.txt")) ".bntl" = false
  /\ main Demo.arch_name Demo.host Demo.parse_args
       ["foo.bin"; "--type-library"; "out.txt"] Demo.full_bundle
     = (inl (SystemExit 2 "TYPE_ARCHIVE must have a .bntl extension."),
        Demo.full_bundle).
Proof.
  split; [reflexivity|]. split; [reflexivity|].
  exact (@main_rejects_extension _ _ _ _ Demo.arch_name Demo.host Demo.parse_args
           ["foo.bin"; "--type-library"; "out.txt"] "foo.bin" None "out.txt"
           Demo.full_bundle eq_refl eq_refl).
Defined.


Lemma export_type_library_registers_witness :
  import_debug_info Demo.host (Demo.importer, Demo.full_bundle)
  = (inr tt, (Demo.imported, Demo.after_import))
  /\ exists lib w2 evs,
       export_type_library Demo.arch_name Demo.host None
         (Demo.importer, Demo.full_bundle)
       = (inr tt, (Demo.imported, w2))
       /\ tl_named_types lib = [("point", "struct { int x; int y; }")]
       /\ tl_named_objects lib
          = [("main", "int (int, char**)"); ("norm", "int (struct point*)")]
       /\ trace w2
          = (trace Demo.after_import ++ EvNewLibrary (tl_name lib) :: evs
             ++ [EvWrite "out.txt" lib])%list
       /\ disk w2 = [("out.txt", lib)].
Proof.
  assert (I : import_debug_info Demo.host (Demo.importer, Demo.full_bundle)
              = (inr tt, (Demo.imported, Demo.after_import)))
    by (vm_compute; reflexivity).
  split; [exact I|].
  exact (@export_type_library_registers _ _ _ _ Demo.arch_name Demo.host None
           Demo.importer Demo.full_bundle Demo.imported Demo.after_import
           Demo.imported_view "x86_64" "mac-x86_64"
           I eq_refl eq_refl eq_refl eq_refl).
Defined.

Lemma import_debug_info_once_witness :
  import_debug_info Demo.host (Demo.importer, Demo.full_bundle)
  = (inr tt, (Demo.imported, Demo.after_import))
  /\ import_debug_info Demo.host (Demo.imported, Demo.after_import)
     = (inr tt, (Demo.imported, Demo.after_import)).
Proof.
  assert (I : import_debug_info Demo.host (Demo.importer, Demo.full_bundle)
              = (inr tt, (Demo.imported, Demo.after_import)))
    by (vm_compute; reflexivity).
  split; [exact I|].
  exact (proj1 (@import_debug_info_once _ _ _ _ Demo.arch_name Demo.host) _ _ I).
Defined.

(** C7, the claim as stated fails: on a host whose DWARF parser raises, a
    caller that catches the exception and calls import_debug_info again on
    the same instance runs the body again. The second call is no no-op: the
    debug file is loaded a second time and the parser is called a second
    time, so the events are no prefix of one load, parse, apply and analyze
    sequence. *)
Lemma import_debug_info_again_after_raise :
  import_debug_info Demo.host_parse_fails (Demo.importer, Demo.full_bundle)
  = (inl (PlatformError "parse_debug_info"),
     (set_view Demo.base_view Demo.importer,
      after_events Demo.full_bundle
        [EvLoad "foo.bin.dSYM/Contents/Resources/DWARF/foo.bin" [];
         EvLoad "foo.bin" [("corePlugins.dwarfImport", true)];
         EvParse]))
  /\ import_debug_info Demo.host_parse_fails
       (set_view Demo.base_view Demo.importer,
        after_events Demo.full_bundle
          [EvLoad "foo.bin.dSYM/Contents/Resources/DWARF/foo.bin" [];
           EvLoad "foo.bin" [("corePlugins.dwarfImport", true)];
           EvParse])
     = (inl (PlatformError "parse_debug_info"),
        (set_view Demo.base_view Demo.importer,
         after_events Demo.full_bundle
           [EvLoad "foo.bin.dSYM/Contents/Resources/DWARF/foo.bin" [];
            EvLoad "foo.bin" [("corePlugins.dwarfImport", true)];
            EvParse;
            EvLoad "foo.bin.dSYM/Contents/Resources/DWARF/foo.bin" [];
            EvParse]))
  /\ ~ (exists rest,
          @import_sequence Demo.Ty Demo.Arch Demo.Platform
            Demo.base_path Demo.dsym_file
          = ([EvLoad "foo.bin.dSYM/Contents/Resources/DWARF/foo.bin" [];
              EvLoad "foo.bin" [("corePlugins.dwarfImport", true)];
              EvParse;
              EvLoad "foo.bin.dSYM/Contents/Resources/DWARF/foo.bin" [];
              EvParse] ++ rest)%list).
Proof.
  split; [reflexivity|]. split; [reflexivity|].
  intros [rest H]. vm_compute in H. discriminate H.
Qed.

(** The same with export_type_library, which calls import_debug_info
    first: it raises what the import raises, and a second call repeats the
    load of the debug file and the call of the parser. *)
Example export_type_library_again_after_raise :
  filter (@is_import_event Demo.Ty Demo.Arch Demo.Platform)
    (trace (snd (snd (export_type_library Demo.arch_name Demo.host_parse_fails
                        None
                        (snd (export_type_library Demo.arch_name
                                Demo.host_parse_fails None
                                (Demo.importer, Demo.full_bundle)))))))
  = [EvLoad "foo.bin.dSYM/Contents/Resources/DWARF/foo.bin" [];
     EvLoad "foo.bin" [("corePlugins.dwarfImport", true)];
     EvParse;
     EvLoad "foo.bin.dSYM/Contents/Resources/DWARF/foo.bin" [];
     EvParse].
Proof. vm_compute. reflexivity. Qed.

(** Path.exists lets an errno it does not ignore through: in a directory
    that may not be searched, discovery raises that OSError, and so do the
    construction and main. *)
Example find_dwarf_file_permission_denied :
  _find_dwarf_file "binaryninja-dwarf.DwarfImporter[foo.bin]"
    (parse "foo.bin") Demo.locked_directory
  = (inl (OSError EACCES),
     after_events Demo.locked_directory
       [EvFindDwarf (parse "foo.bin");
        EvLog "binaryninja-dwarf.DwarfImporter[foo.bin]"
          "Looking for DWARF file for foo.bin @ foo.bin.dSYM";
        EvExists (parse "foo.bin.dSYM")]).
Proof. reflexivity. Qed.

Example init_permission_denied :
  fst (__init__ Demo.host (Some (parse "foo.bin")) None None
         Demo.locked_directory)
  = inl (OSError EACCES).
Proof. reflexivity. Qed.

Example main_permission_denied :
  fst (main Demo.arch_name Demo.host Demo.parse_args ["foo.bin"]
         Demo.locked_directory)
  = inl (OSError EACCES).
Proof. reflexivity. Qed.

(** The parser's own exits: --help, and a command line without BASE_FILE. *)
Example main_help_exits :
  main Demo.arch_name Demo.host Demo.parse_args ["--help"] Demo.full_bundle
  = (inl (SystemExit 0 "usage"), Demo.full_bundle).
Proof. reflexivity. Qed.

Example main_usage_error_exits :
  main Demo.arch_name Demo.host Demo.parse_args [] Demo.full_bundle
  = (inl (SystemExit 2 "the following arguments are required: BASE_FILE"),
     Demo.full_bundle).
Proof. reflexivity. Qed.

Lemma extension_checked_only_by_main_witness :
  import_debug_info Demo.host (Demo.importer, Demo.full_bundle)
  = (inr tt, (Demo.imported, Demo.after_import))
  /\ exists lib w2,
       export_type_library Demo.arch_name Demo.host (Some (parse "notes.md"))
         (Demo.importer, Demo.full_bundle)
       = (inr tt, (Demo.imported, w2))
       /\ disk w2 = [("notes.md", lib)].
Proof.
  assert (I : import_debug_info Demo.host (Demo.importer, Demo.full_bundle)
              = (inr tt, (Demo.imported, Demo.after_import)))
    by (vm_compute; reflexivity).
  split; [exact I|].
  exact (proj2 (@extension_checked_only_by_main _ _ _ _ Demo.arch_name Demo.host)
           (Some (parse "notes.md"))
           Demo.importer Demo.full_bundle Demo.imported Demo.after_import
           Demo.imported_view "x86_64" "mac-x86_64"
           I eq_refl eq_refl eq_refl eq_refl).
Defined.

Lemma export_output_file_witness :
  import_debug_info Demo.host (Demo.importer, Demo.full_bundle)
  = (inr tt, (Demo.imported, Demo.after_import))
  /\ exists lib w2,
       export_type_library Demo.arch_name Demo.host (Some (parse "elsewhere.bntl"))
         (Demo.importer, Demo.full_bundle)
       = (inr tt, (Demo.imported, w2))
       /\ type_archive Demo.imported = parse "out.txt"
       /\ disk w2 = [("elsewhere.bntl", lib)]
       /\ exists evs, trace w2
            = (trace Demo.after_import ++ evs ++ [EvWrite "elsewhere.bntl" lib])%list.
Proof.
  assert (I : import_debug_info Demo.host (Demo.importer, Demo.full_bundle)
              = (inr tt, (Demo.imported, Demo.after_import)))
    by (vm_compute; reflexivity).
  split; [exact I|].
  exact (@export_output_file _ _ _ _ Demo.arch_name Demo.host
           (Some (parse "elsewhere.bntl"))
           Demo.importer Demo.full_bundle Demo.imported Demo.after_import
           Demo.imported_view "x86_64" "mac-x86_64"
           I eq_refl eq_refl eq_refl eq_refl).
Defined.

(** ** Remarks on the edges of the claims *)

(** The guard [if not self.base_file] cannot fire: with a view whose file
    name is empty the construction goes on to the discovery, for the path
    ["."], and it is the discovery that raises. *)
Example init_unnamed_view_reaches_discovery :
  fst (__init__ Demo.host_unnamed_view None None None Demo.full_bundle)
  = inl (FileNotFoundError "Could not find DWARF file for .").
Proof. vm_compute. reflexivity. Qed.

(** A base path without a name has no default type archive: [with_suffix]
    raises. *)
Example init_root_has_no_default :
  fst (__init__ Demo.host (Some (parse "/")) (Some Demo.dsym_file) None
         Demo.full_bundle)
  = inl (ValueError "/ has an empty name").
Proof. vm_compute. reflexivity. Qed.

(** The whole script on the concrete host: one library, written to the
    default archive next to the base file. *)
Example main_writes_default_archive :
  fst (main Demo.arch_name Demo.host Demo.parse_args ["foo.bin"] Demo.full_bundle)
  = inr tt
  /\ disk (snd (main Demo.arch_name Demo.host Demo.parse_args ["foo.bin"]
                  Demo.full_bundle))
     = [("foo.bntl", Demo.library)].
Proof. vm_compute. split; reflexivity. Qed.

(** Two exports and an import on one instance load, parse, apply and
    analyze once. *)
Example three_calls_one_import :
  filter (@is_import_event _ _ _)
    (trace (snd (snd (run_calls Demo.arch_name Demo.host
                        [CallExport None; CallImport; CallExport (Some (parse "b.bntl"))]
                        (Demo.importer, Demo.full_bundle)))))
  = import_sequence Demo.base_path Demo.dsym_file.
Proof. vm_compute. reflexivity. Qed.

(** * More of the program *)

Section MoreFacts.

Variables Ty Arch Platform DebugInfo : Type.
Variable arch_name : Arch -> string.
Variable host : Host Ty Arch Platform DebugInfo.
Variable parse_args : list string -> (nat * string) + Namespace.

Implicit Types (w : World Ty Arch Platform) (o : DwarfImporter Ty Arch Platform).

(** ** The kept view *)

(** Every outcome of one access of [base_binaryview]. *)
Lemma base_binaryview_outcome o w :
  match base_binaryview host (o, w) with
  | (inr v, (o', w')) =>
      cached_base_binaryview o' = Some v
      /\ attributes o' = attributes o
      /\ import_debug_info_cached o' = import_debug_info_cached o
      /\ fs w' = fs w /\ disk w' = disk w
      /\ exists added, trace w' = (trace w ++ added)%list
  | (inl e, (o', w')) =>
      e = PlatformError "load" /\ o' = o
      /\ fs w' = fs w /\ disk w' = disk w
      /\ exists added, trace w' = (trace w ++ added)%list
  end.
Proof.
  unfold base_binaryview, bn_load, of_host, in_world, update_self, self, bind,
    emit, modify, ret, raise.
  cbn [fst snd].
  destruct (cached_base_binaryview o) as [v|] eqn:Hv.
  - repeat split; trivial. exists []. now rewrite app_nil_r.
  - destruct (host_load host _ _) as [v|]; cbn [fst snd fs disk trace];
      repeat split; eauto.
Qed.

(** X1: base_binaryview is a cached property. On an instance that keeps no
    view, when the host loads the base file, two accesses in a row return the
    same view, the base file is loaded once, with the option
    corePlugins.dwarfImport set, and the view is kept in the instance. *)
Theorem base_binaryview_loads_once o w (v : BinaryView Ty Arch Platform) :
  cached_base_binaryview o = None ->
  host_load host (str (base_file o)) [("corePlugins.dwarfImport", true)] = Some v ->
  base_binaryview_twice host (o, w)
  = (inr (v, v),
     (set_view v o,
      after_events w [EvLoad (str (base_file o)) [("corePlugins.dwarfImport", true)]])).
Proof.
  intros Hn Hl.
  unfold base_binaryview_twice, base_binaryview, bn_load, of_host, in_world,
    update_self, self, bind, emit, modify, ret, raise.
  cbn [fst snd]. rewrite Hn, Hl. reflexivity.
Qed.

(** ** The import *)

(** Every outcome of [import_debug_info], on any instance. *)
Lemma import_debug_info_outcome o w :
  match import_debug_info host (o, w) with
  | (r, (o', w')) =>
      attributes o' = attributes o
      /\ fs w' = fs w /\ disk w' = disk w
      /\ (exists added, trace w' = (trace w ++ added)%list)
      /\ match r with
         | inl e => is_platform_error e
                    /\ import_debug_info_cached o = false
                    /\ import_debug_info_cached o' = false
         | inr _ => import_debug_info_cached o' = true
         end
  end.
Proof.
  unfold import_debug_info, import_debug_info_body, base_binaryview, bn_load,
    of_host, in_world, update_self, self, bind, emit, modify, ret, raise,
    is_platform_error.
  cbn [fst snd].
  destruct (import_debug_info_cached o) eqn:Hc.
  { repeat split; trivial. exists []. now rewrite app_nil_r. }
  repeat match goal with
         | |- context [match ?x with _ => _ end] =>
             match type of x with
             | option _ => destruct x; cbn [fst snd set_view set_cached
                             cached_base_binaryview import_debug_info_cached
                             fs disk trace]
             end
         end;
    repeat split; rewrite <- ?app_assoc; eauto.
Qed.

(** X2: the first import on a fresh instance, on a host where every step
    works: the debug file is loaded first, without options, then the base
    file with the DWARF plugin option; the parser gets the base view and the
    debug view; its result is applied to the base view, and the applied view
    is analysed. The instance keeps the analysed view and the cache entry,
    and the events are exactly this sequence. *)
Theorem import_debug_info_fresh_run (b d t : Path) lg w
    (dv bv0 bv1 bv2 : BinaryView Ty Arch Platform) (di : DebugInfo) :
  host_load host (str d) [] = Some dv ->
  host_load host (str b) [("corePlugins.dwarfImport", true)] = Some bv0 ->
  host_parse_debug_info host bv0 dv = Some di ->
  host_apply_debug_info host bv0 di = Some bv1 ->
  host_update_analysis_and_wait host bv1 = Some bv2 ->
  import_debug_info host (mkDwarfImporter b d t lg None false, w)
  = (inr tt,
     (mkDwarfImporter b d t lg (Some bv2) true,
      after_events w (import_sequence b d))).
Proof.
  intros H1 H2 H3 H4 H5.
  unfold import_debug_info, import_debug_info_body, base_binaryview, bn_load,
    of_host, in_world, update_self, self, bind, emit, modify, ret, raise,
    after_events, import_sequence.
  cbn [fst snd import_debug_info_cached cached_base_binaryview base_file
       dwarf_file].
  rewrite H1. cbn [fst snd set_view cached_base_binaryview base_file dwarf_file
                   fs disk trace].
  rewrite H2. cbn [fst snd set_view cached_base_binaryview base_file dwarf_file
                   fs disk trace].
  rewrite H3. cbn [fst snd set_view cached_base_binaryview base_file dwarf_file
                   fs disk trace].
  rewrite H4. cbn [fst snd set_view cached_base_binaryview base_file dwarf_file
                   fs disk trace].
  rewrite H5. cbn [fst snd set_view set_cached cached_base_binaryview base_file
                   dwarf_file type_archive logger import_debug_info_cached
                   fs disk trace].
  rewrite <- !app_assoc. reflexivity.
Qed.

(** X3: an import that raises is not memoized. On any instance, whatever
    import_debug_info raises comes from the host, the instance had and has no
    cache entry (so the next call runs the body again), and a call that
    returns leaves the entry. Either way the four attributes, the file system
    and the written files are as before. *)
Theorem import_debug_info_raise_not_memoized o w :
  match import_debug_info host (o, w) with
  | (inl e, (o', w')) =>
      is_platform_error e
      /\ import_debug_info_cached o = false
      /\ import_debug_info_cached o' = false
      /\ attributes o' = attributes o /\ disk w' = disk w
  | (inr _, (o', w')) =>
      import_debug_info_cached o' = true
      /\ attributes o' = attributes o /\ disk w' = disk w
  end.
Proof.
  pose proof (import_debug_info_outcome o w) as H.
  destruct (import_debug_info host (o, w)) as [[e|u] [o' w']].
  - destruct H as (A & _ & D & _ & E & C & C'). now repeat split.
  - destruct H as (A & _ & D & _ & C). now repeat split.
Qed.

(** X4: the debug file comes first. When the host cannot load the debug
    file, import_debug_info raises with the instance unchanged: the base file
    has not been loaded, and the only event is the attempt on the debug
    file. *)
Theorem import_debug_info_debug_file_first o w :
  import_debug_info_cached o = false ->
  host_load host (str (dwarf_file o)) [] = None ->
  import_debug_info host (o, w)
  = (inl (PlatformError "load"),
     (o, after_events w [EvLoad (str (dwarf_file o)) []])).
Proof.
  intros Hc Hl.
  unfold import_debug_info, import_debug_info_body, bn_load, of_host, in_world,
    self, bind, emit, modify, ret, raise.
  cbn [fst snd]. rewrite Hc. cbn [fst snd]. rewrite Hl. reflexivity.
Qed.

(** ** The export *)

Lemma attributes_type_archive o o' :
  attributes o' = attributes o -> type_archive o' = type_archive o.
Proof. unfold attributes. now intros [= _ _ H _]. Qed.

Lemma attributes_logger o o' :
  attributes o' = attributes o -> logger o' = logger o.
Proof. unfold attributes. now intros [= _ _ _ H]. Qed.

(** After the import and the first access of the view, the export goes on
    as the export of the instance these two left. *)
Lemma export_after_view out o w o1 w1 o2 w2 (v : BinaryView Ty Arch Platform) :
  import_debug_info host (o, w) = (inr tt, (o1, w1)) ->
  base_binaryview host (o1, w1) = (inr v, (o2, w2)) ->
  export_type_library arch_name host out (o, w)
  = export_type_library arch_name host out (o2, w2).
Proof.
  intros Hi Hb.
  pose proof (import_debug_info_outcome o w) as Ho. rewrite Hi in Ho.
  destruct Ho as (_ & _ & _ & _ & Hc).
  pose proof (base_binaryview_outcome o1 w1) as Hv. rewrite Hb in Hv.
  destruct Hv as (Hv & _ & Hc' & _).
  rewrite Hc in Hc'.
  unfold export_type_library.
  rewrite (@bind_ok _ _ _ _ _ _ _ _
             (@import_debug_info_memo _ _ _ _ host o2 w2 Hc')).
  rewrite (@bind_ok _ _ _ _ _ _ _ _
             (@base_binaryview_cached _ _ _ _ host o2 w2 v Hv)).
  rewrite (@bind_ok _ _ _ _ _ _ _ _ Hi), (@bind_ok _ _ _ _ _ _ _ _ Hb).
  reflexivity.
Qed.

(** Every outcome of [export_type_library], on any instance. *)
Lemma export_general out o w :
  match export_type_library arch_name host out (o, w) with
  | (r, (o', w')) =>
      attributes o' = attributes o /\ fs w' = fs w
      /\ (exists added, trace w' = (trace w ++ added)%list)
      /\ match r with
         | inl e => (is_platform_error e \/ e = AssertionError)
                    /\ disk w' = disk w
         | inr _ =>
             import_debug_info_cached o' = true
             /\ exists view a p,
                  cached_base_binaryview o' = Some view
                  /\ bv_arch view = Some a /\ bv_platform view = Some p
                  /\ host_finalize host (library_of arch_name view a p) = true
                  /\ disk w'
                     = (output_path out o, library_of arch_name view a p) :: disk w
         end
  end.
Proof.
  pose proof (import_debug_info_outcome o w) as Hi.
  destruct (import_debug_info host (o, w)) as [[e|[]] [o1 w1]] eqn:Ei.
  - rewrite (@export_import_raises _ _ _ _ arch_name host out _ _ _ Ei).
    destruct Hi as (A & F & D & T & E & _). repeat split; auto.
  - destruct Hi as (A1 & F1 & D1 & [t1 T1] & C1).
    pose proof (base_binaryview_outcome o1 w1) as Hb.
    destruct (base_binaryview host (o1, w1)) as [[e|v] [o2 w2]] eqn:Eb.
    + unfold export_type_library.
      rewrite (@bind_ok _ _ _ _ _ _ _ _ Ei), (@bind_raise _ _ _ _ _ _ _ _ Eb).
      destruct Hb as (-> & -> & F2 & D2 & [t2 T2]).
      repeat split; try congruence.
      * exists (t1 ++ t2)%list. now rewrite T2, T1, app_assoc.
      * left. now exists "load".
    + rewrite (@export_after_view out _ _ _ _ _ _ _ Ei Eb).
      destruct Hb as (V2 & A2 & C2 & F2 & D2 & [t2 T2]).
      rewrite C1 in C2.
      rewrite (@export_cached _ _ _ _ arch_name host out o2 w2 v C2 V2).
      assert (P : output_path out o2 = output_path out o).
      { unfold output_path.
        now rewrite (@attributes_type_archive _ _ A2), (@attributes_type_archive _ _ A1). }
      destruct (bv_arch v) as [a|] eqn:Ha, (bv_platform v) as [p|] eqn:Hp;
        try (repeat split; try congruence;
             [exists (t1 ++ t2)%list; now rewrite T2, T1, app_assoc | now right]).
      cbv zeta. fold (library_of arch_name v a p).
      destruct (host_finalize host (library_of arch_name v a p)) eqn:Hf.
      * cbn [fs disk trace after_events].
        change (str match out with
                    | Some q => q
                    | None => type_archive o2
                    end) with (output_path out o2).
        rewrite P.
        repeat split; try congruence.
        -- eexists. rewrite T2, T1, <- !app_assoc. reflexivity.
        -- exists v, a, p. repeat split; congruence.
      * cbn [fs disk trace after_events].
        repeat split; try congruence.
        -- eexists. rewrite T2, T1, <- !app_assoc. reflexivity.
        -- now right.
Qed.

(** X5: export_type_library writes all or nothing. On any instance it
    either raises, and then the exception is the host's or an AssertionError
    and no file has been written, or it returns, and then exactly one file
    has been added, at the output path, holding the library built from the
    kept view, which the host finalized. The four attributes are as before
    in both cases. *)
Theorem export_type_library_outcomes out o w :
  match export_type_library arch_name host out (o, w) with
  | (inl e, (o', w')) =>
      (is_platform_error e \/ e = AssertionError)
      /\ disk w' = disk w /\ attributes o' = attributes o
  | (inr _, (o', w')) =>
      attributes o' = attributes o
      /\ exists view a p,
           cached_base_binaryview o' = Some view
           /\ bv_arch view = Some a /\ bv_platform view = Some p
           /\ host_finalize host (library_of arch_name view a p) = true
           /\ disk w' = (output_path out o, library_of arch_name view a p) :: disk w
  end.
Proof.
  pose proof (export_general out o w) as H.
  destruct (export_type_library arch_name host out (o, w)) as [[e|u] [o' w']].
  - destruct H as (A & _ & _ & E & D). now repeat split.
  - destruct H as (A & _ & _ & _ & V). now split.
Qed.

(** X6: the two asserts before the library is created. After a completed
    import, if the view has no architecture or no platform, the export raises
    AssertionError and nothing has happened since the import: no library, no
    log line, no file. *)
Theorem export_type_library_needs_arch_and_platform out o w o1 w1
    (view : BinaryView Ty Arch Platform) :
  import_debug_info host (o, w) = (inr tt, (o1, w1)) ->
  cached_base_binaryview o1 = Some view ->
  bv_arch view = None \/ bv_platform view = None ->
  export_type_library arch_name host out (o, w) = (inl AssertionError, (o1, w1)).
Proof.
  intros Hi Hv H.
  rewrite (@export_after_import _ _ _ _ arch_name host out _ _ Hi).
  rewrite (@export_cached _ _ _ _ arch_name host out o1 w1 view
             (@import_debug_info_sets_cache _ _ _ _ host _ _ Hi) Hv).
  destruct H as [-> | ->]; [reflexivity | now destruct (bv_arch view)].
Qed.

(** X7: the library the export writes is for the architecture of the view,
    is named <filename>_<arch>_types after the file name of the view (not
    the base_file attribute), has the platform of the view as its only
    platform and the file name as its only alternate name. *)
Theorem export_type_library_names_library out o w o1 w1
    (view : BinaryView Ty Arch Platform) a p :
  import_debug_info host (o, w) = (inr tt, (o1, w1)) ->
  cached_base_binaryview o1 = Some view ->
  bv_arch view = Some a -> bv_platform view = Some p ->
  host_finalize host (library_of arch_name view a p) = true ->
  exists lib w2,
    export_type_library arch_name host out (o, w) = (inr tt, (o1, w2))
    /\ disk w2 = (output_path out o1, lib) :: disk w1
    /\ tl_arch lib = a
    /\ tl_name lib
       = name (parse (bv_filename view)) ++ "_" ++ arch_name a ++ "_types"
    /\ tl_platforms lib = [p]
    /\ tl_alternate_names lib = [name (parse (bv_filename view))].
Proof.
  intros Hi Hv Ha Hp Hf.
  pose proof (@export_run _ _ _ _ arch_name host out _ _ _ _ _ _ _
                Hi Hv Ha Hp Hf) as E.
  cbv zeta in E. eexists _, _. split; [exact E|]. now repeat split.
Qed.

(** X8: two exports in a row on one instance. The second does not import
    again: after the import of the first, no load, parse, apply or analyze
    event happens. Each export builds a library of its own from the kept view
    and writes it, so two files are written, the second on top, with the same
    content. *)
Theorem export_twice_imports_once first second o w o1 w1
    (view : BinaryView Ty Arch Platform) a p :
  import_debug_info host (o, w) = (inr tt, (o1, w1)) ->
  cached_base_binaryview o1 = Some view ->
  bv_arch view = Some a -> bv_platform view = Some p ->
  host_finalize host (library_of arch_name view a p) = true ->
  exists w3 added,
    export_twice arch_name host first second (o, w) = (inr tt, (o1, w3))
    /\ disk w3
       = (output_path second o1, library_of arch_name view a p)
         :: (output_path first o1, library_of arch_name view a p) :: disk w1
    /\ trace w3 = (trace w1 ++ added)%list
    /\ filter (@is_import_event Ty Arch Platform) added = [].
Proof.
  intros Hi Hv Ha Hp Hf.
  pose proof (@export_run _ _ _ _ arch_name host first _ _ _ _ _ _ _
                Hi Hv Ha Hp Hf) as E.
  cbv zeta in E. unfold export_twice.
  rewrite (@bind_ok _ _ _ _ _ _ _ _ E).
  rewrite (@export_cached _ _ _ _ arch_name host second o1 _ view
             (@import_debug_info_sets_cache _ _ _ _ host _ _ Hi) Hv).
  rewrite Ha, Hp. cbv zeta. fold (library_of arch_name view a p). rewrite Hf.
  eexists.
  exists ((EvNewLibrary (tl_name (library_of arch_name view a p))
           :: type_logs (logger o1) (bv_types view)
           ++ function_logs (logger o1) (bv_functions view)
           ++ [EvFinalize; EvWrite (output_path first o1)
                             (library_of arch_name view a p)])
          ++ (EvNewLibrary (tl_name (library_of arch_name view a p))
              :: type_logs (logger o1) (bv_types view)
              ++ function_logs (logger o1) (bv_functions view)
              ++ [EvFinalize; EvWrite (output_path second o1)
                                (library_of arch_name view a p)]))%list.
  split; [reflexivity|]. cbn [disk trace fs after_events].
  split; [reflexivity|]. split.
  - rewrite <- !app_assoc. cbn [app]. rewrite <- !app_assoc. reflexivity.
  - rewrite !filter_app. cbn [filter is_import_event app].
    rewrite !filter_app, !filter_type_logs, !filter_function_logs. reflexivity.
Qed.

(** ** Sequences of calls *)

Lemma run_call_attributes c o w :
  attributes (fst (snd (run_call arch_name host c (o, w)))) = attributes o
  /\ fs (snd (snd (run_call arch_name host c (o, w)))) = fs w.
Proof.
  destruct c as [|out]; cbn [run_call].
  - pose proof (import_debug_info_outcome o w) as H.
    destruct (import_debug_info host (o, w)) as [r [o' w']].
    now destruct H as (A & F & _).
  - pose proof (export_general out o w) as H.
    destruct (export_type_library arch_name host out (o, w)) as [r [o' w']].
    now destruct H as (A & F & _).
Qed.

(** X9: no call changes what __init__ set. After any sequence of calls of
    import_debug_info and export_type_library, on any instance, base_file,
    dwarf_file, type_archive and logger are what they were, however the
    sequence ends. *)
Theorem calls_keep_attributes calls o w :
  attributes (fst (snd (run_calls arch_name host calls (o, w)))) = attributes o.
Proof.
  revert o w. induction calls as [|c calls IH]; intros o w; [reflexivity|].
  cbn [run_calls]. unfold bind.
  pose proof (run_call_attributes c o w) as [A _].
  destruct (run_call arch_name host c (o, w)) as [[e|u] [o' w']];
    cbn [fst snd] in *; [exact A|].
  now rewrite IH.
Qed.

(** ** Construction *)

(** Without a base file, the file of the host's view stands in. *)
Lemma init_current_file (f : string) (dwarf ta : option Path) w :
  host_bv host = BoundView f ->
  __init__ host None dwarf ta w = __init__ host (Some (parse f)) dwarf ta w.
Proof.
  intros H. unfold __init__, bind, emit, modify, ret, current_file.
  now rewrite H.
Qed.

Lemma init_outcome_with_base (b : Path) (dwarf ta : option Path) w :
  match __init__ host (Some b) dwarf ta w with
  | (r, w') =>
      fs w' = fs w /\ disk w' = disk w
      /\ (trace w' = (trace w ++ [EvInit])%list
          \/ (dwarf = None
              /\ exists lg msg,
                   trace w'
                   = (trace w ++ [EvInit; EvFindDwarf b; EvLog lg msg;
                                  EvExists (parse (str b ++ ".dSYM"))])%list))
      /\ match r with
         | inl (FileNotFoundError _) => dwarf = None
         | inl (OSError _) => dwarf = None
         | inl (ValueError _) => ta = None
         | inl _ => False
         | inr imp =>
             base_file imp = b
             /\ (forall d, dwarf = Some d -> dwarf_file imp = d)
             /\ match ta with
                | Some t => type_archive imp = t
                | None => with_suffix b ".bntl" = inr (type_archive imp)
                end
             /\ logger imp = getChild ("DwarfImporter[" ++ name b ++ "]")
             /\ cached_base_binaryview imp = None
             /\ import_debug_info_cached imp = false
         end
  end.
Proof.
  rewrite init_run. destruct dwarf as [d|].
  - assert (Hd : forall d', Some d = Some d' -> d = d') by (now intros d' [= H]).
    destruct ta as [t|].
    + cbn [fs disk trace after_events dwarf_file base_file type_archive logger
           cached_base_binaryview import_debug_info_cached].
      repeat split; auto.
    + destruct (with_suffix b ".bntl") eqn:E;
        cbn [fs disk trace after_events dwarf_file base_file type_archive logger
             cached_base_binaryview import_debug_info_cached];
        repeat split; auto.
  - rewrite find_dwarf_file_run.
    assert (T : @None Path = None
                /\ exists lg msg,
                     trace (after_events (after_events w [EvInit])
                              [EvFindDwarf b;
                               EvLog (getChild ("DwarfImporter[" ++ name b ++ "]"))
                                 ("Looking for DWARF file for " ++ str b ++ " @ "
                                  ++ str (parse (str b ++ ".dSYM")));
                               EvExists (parse (str b ++ ".dSYM"))])
                     = (trace w ++ [EvInit; EvFindDwarf b; EvLog lg msg;
                                    EvExists (parse (str b ++ ".dSYM"))])%list).
    { split; [reflexivity|]. eexists _, _.
      cbn [trace after_events]. rewrite <- app_assoc. reflexivity. }
    destruct (stat _ _) as [|e|].
    + destruct ta as [t|].
      * cbn [fs disk after_events dwarf_file base_file type_archive logger
             cached_base_binaryview import_debug_info_cached].
        repeat split; auto; discriminate.
      * destruct (with_suffix b ".bntl") eqn:E;
          cbn [fs disk after_events dwarf_file base_file type_archive logger
               cached_base_binaryview import_debug_info_cached];
          repeat split; auto; discriminate.
    + destruct (_ignore_error e); cbn [fs disk after_events];
        repeat split; auto.
    + cbn [fs disk after_events]. repeat split; auto.
Qed.

(** Every outcome of [__init__]. *)
Lemma init_outcome (base dwarf ta : option Path) w :
  match __init__ host base dwarf ta w with
  | (r, w') =>
      fs w' = fs w /\ disk w' = disk w
      /\ (trace w' = (trace w ++ [EvInit])%list
          \/ (dwarf = None
              /\ exists b lg msg,
                   trace w'
                   = (trace w ++ [EvInit; EvFindDwarf b; EvLog lg msg;
                                  EvExists (parse (str b ++ ".dSYM"))])%list))
      /\ match r with
         | inl (NameError _) => base = None /\ host_bv host = Unbound
         | inl (AttributeError _) => base = None /\ host_bv host = BoundNone
         | inl (FileNotFoundError _) => dwarf = None
         | inl (OSError _) => dwarf = None
         | inl (ValueError _) => ta = None
         | inl _ => False
         | inr imp =>
             (forall b, base = Some b -> base_file imp = b)
             /\ (forall d, dwarf = Some d -> dwarf_file imp = d)
             /\ match ta with
                | Some t => type_archive imp = t
                | None => with_suffix (base_file imp) ".bntl" = inr (type_archive imp)
                end
             /\ logger imp
                = getChild ("DwarfImporter[" ++ name (base_file imp) ++ "]")
             /\ cached_base_binaryview imp = None
             /\ import_debug_info_cached imp = false
         end
  end.
Proof.
  assert (S : forall b,
    match __init__ host (Some b) dwarf ta w with
    | (r, w') =>
      fs w' = fs w /\ disk w' = disk w
      /\ (trace w' = (trace w ++ [EvInit])%list
          \/ (dwarf = None
              /\ exists b lg msg,
                   trace w'
                   = (trace w ++ [EvInit; EvFindDwarf b; EvLog lg msg;
                                  EvExists (parse (str b ++ ".dSYM"))])%list))
      /\ match r with
         | inl (FileNotFoundError _) => dwarf = None
         | inl (OSError _) => dwarf = None
         | inl (ValueError _) => ta = None
         | inl _ => False
         | inr imp =>
             base_file imp = b
             /\ (forall d, dwarf = Some d -> dwarf_file imp = d)
             /\ match ta with
                | Some t => type_archive imp = t
                | None => with_suffix (base_file imp) ".bntl" = inr (type_archive imp)
                end
             /\ logger imp
                = getChild ("DwarfImporter[" ++ name (base_file imp) ++ "]")
             /\ cached_base_binaryview imp = None
             /\ import_debug_info_cached imp = false
         end
    end).
  { intros b. pose proof (init_outcome_with_base b dwarf ta w) as H.
    destruct (__init__ host (Some b) dwarf ta w) as [r w'].
    destruct H as (F & D & T & R). repeat split; trivial.
    - destruct T as [T | (Hd & lg & msg & T)]; [now left | right].
      split; [exact Hd|]. now exists b, lg, msg.
    - destruct r as [e|imp]; [exact R|].
      destruct R as (B & Dw & A & L & C). rewrite B. now repeat split. }
  destruct base as [b|].
  - specialize (S b). destruct (__init__ host (Some b) dwarf ta w) as [r w'].
    destruct S as (F & D & T & R). repeat split; trivial.
    destruct r as [e|imp].
    + destruct e; auto; contradiction.
    + destruct R as (B & R). split; [now intros b' [= <-]|exact R].
  - destruct (host_bv host) as [| |f] eqn:Hb.
    + unfold __init__, bind, emit, modify, ret, raise, current_file.
      rewrite Hb. cbn. repeat split; auto.
    + unfold __init__, bind, emit, modify, ret, raise, current_file.
      rewrite Hb. cbn. repeat split; auto.
    + rewrite (init_current_file dwarf ta w Hb). specialize (S (parse f)).
      destruct (__init__ host (Some (parse f)) dwarf ta w) as [r w'].
      destruct S as (F & D & T & R). repeat split; trivial.
      destruct r as [e|imp].
      * destruct e; auto; contradiction.
      * destruct R as (B & R). split; [discriminate | exact R].
Qed.

(** X10: construction is lazy. Whatever its arguments and its outcome,
    __init__ loads nothing and writes nothing: the file system and the
    written files are as before, and the only events are its own entry and,
    when no dwarf_file is given, the one discovery (its call, its log line
    and its single look at the bundle path). *)
Theorem init_is_lazy (base dwarf ta : option Path) w :
  fs (snd (__init__ host base dwarf ta w)) = fs w
  /\ disk (snd (__init__ host base dwarf ta w)) = disk w
  /\ (trace (snd (__init__ host base dwarf ta w)) = (trace w ++ [EvInit])%list
      \/ (dwarf = None
          /\ exists b lg msg,
               trace (snd (__init__ host base dwarf ta w))
               = (trace w ++ [EvInit; EvFindDwarf b; EvLog lg msg;
                              EvExists (parse (str b ++ ".dSYM"))])%list)).
Proof.
  pose proof (init_outcome base dwarf ta w) as H.
  destruct (__init__ host base dwarf ta w) as [r w'].
  now destruct H as (F & D & T & _).
Qed.

(** X11: what __init__ can raise, and what it keeps. A NameError or an
    AttributeError only without a base file (the name bv unbound, or bound
    to None); a FileNotFoundError, or the OSError that Path.exists lets
    through (any errno other than ENOENT, ENOTDIR, EBADF and ELOOP), only
    without a dwarf_file; a ValueError only without a type_archive; nothing
    else. An instance that is returned
    holds the paths that were given, the default archive is with_suffix of
    its base file, its logger is the child DwarfImporter[<name>], and it
    keeps no view and no cache entry. *)
Theorem init_errors_and_fields (base dwarf ta : option Path) w :
  match fst (__init__ host base dwarf ta w) with
  | inl (NameError _) => base = None /\ host_bv host = Unbound
  | inl (AttributeError _) => base = None /\ host_bv host = BoundNone
  | inl (FileNotFoundError _) => dwarf = None
  | inl (OSError _) => dwarf = None
  | inl (ValueError _) => ta = None
  | inl _ => False
  | inr imp =>
      match base with Some b => base_file imp = b | None => True end
      /\ match dwarf with Some d => dwarf_file imp = d | None => True end
      /\ match ta with
         | Some t => type_archive imp = t
         | None => with_suffix (base_file imp) ".bntl" = inr (type_archive imp)
         end
      /\ logger imp
         = "binaryninja-dwarf.DwarfImporter[" ++ name (base_file imp) ++ "]"
      /\ cached_base_binaryview imp = None
      /\ import_debug_info_cached imp = false
  end.
Proof.
  pose proof (init_outcome base dwarf ta w) as H.
  destruct (__init__ host base dwarf ta w) as [r w'].
  destruct H as (_ & _ & _ & R). cbn [fst].
  destruct r as [e|imp]; [exact R|].
  destruct R as (B & D & A & L & C). repeat split; try apply C; trivial.
  - destruct base; auto.
  - destruct dwarf; auto.
Qed.

Lemma with_suffix_endswith (b q : Path) :
  with_suffix b ".bntl" = inr q -> endswith (str q) ".bntl" = true.
Proof.
  intros H. destruct (string_dec (name b) "") as [Hn|Hn].
  - destruct (@with_suffix_no_name b ".bntl" Hn) as [msg E]. congruence.
  - rewrite (@with_suffix_bntl b Hn) in H. injection H as <-.
    apply str_snoc_endswith.
Qed.

(** X12: construction with discovery. For a well-formed base path whose
    bundle <file>.dSYM exists, __init__ without a dwarf_file returns an
    instance whose dwarf_file is <file>.dSYM/Contents/Resources/DWARF/<name>,
    provided a type_archive is given or the base path has a name. *)
Theorem init_discovers_dwarf_file (base : Path) (ta : option Path) w :
  wf base ->
  exists_in w (parse (str base ++ ".dSYM")) = true ->
  ta <> None \/ name base <> "" ->
  exists imp,
    fst (__init__ host (Some base) None ta w) = inr imp
    /\ base_file imp = base
    /\ dwarf_file imp
       = parse (str base ++ ".dSYM/Contents/Resources/DWARF/" ++ name base).
Proof.
  intros Hb He Ht. rewrite init_run.
  rewrite find_dwarf_file_found
    by (rewrite exists_in_after_events; exact He).
  rewrite discovered_path by assumption.
  destruct ta as [t|].
  - eexists. cbn. now repeat split.
  - destruct Ht as [Ht|Hn]; [congruence|].
    rewrite (@with_suffix_bntl base Hn). eexists. cbn. now repeat split.
Qed.

(** ** Discovery *)

(** X13: where discovery looks. For a base path whose components are init
    followed by the name n, _find_dwarf_file looks at the one path with the
    same root and the same directory init whose last component is n.dSYM,
    and what it returns lies below it and ends with n alone, not with the
    whole base path. When the look fails with an errno that Path.exists
    does not ignore, that OSError is what the call raises. *)
Theorem find_dwarf_file_beside_base lg (base : Path) (init : list string)
    (n : string) w :
  wf base -> parts base = (init ++ [n])%list ->
  _find_dwarf_file lg base w
  = (match stat w (mkPath (root base) (init ++ [n ++ ".dSYM"])) with
     | StatOk =>
         inr (mkPath (root base)
                (init ++ [n ++ ".dSYM"; "Contents"; "Resources"; "DWARF"; n]))
     | StatError e =>
         if _ignore_error e
         then inl (FileNotFoundError
                     ("Could not find DWARF file for " ++ str base))
         else inl (OSError e)
     | StatInvalid =>
         inl (FileNotFoundError ("Could not find DWARF file for " ++ str base))
     end,
     after_events w
       [EvFindDwarf base;
        EvLog lg ("Looking for DWARF file for " ++ str base ++ " @ "
                  ++ str (mkPath (root base) (init ++ [n ++ ".dSYM"])));
        EvExists (mkPath (root base) (init ++ [n ++ ".dSYM"]))]).
Proof.
  intros Hb E. rewrite find_dwarf_file_run. cbv zeta.
  rewrite discovered_path by assumption.
  rewrite (@sibling_shape base init n Hb E), (@dsym_spec base init n Hb E).
  reflexivity.
Qed.

(** ** The command line *)

(** X14: main writes all or nothing, and only to a .bntl path. Whatever the
    command line, the argument parser, the host and the file system: if main
    ends with an exception (the parser's own exit included) no file has been
    written, and if it returns exactly one file has been written and its
    path ends in .bntl. *)
Theorem main_writes_only_bntl (argv : list string) w :
  match main arch_name host parse_args argv w with
  | (inl _, w') => disk w' = disk w
  | (inr _, w') =>
      exists path lib,
        disk w' = (path, lib) :: disk w /\ endswith path ".bntl" = true
  end.
Proof.
  unfold main.
  destruct (parse_args argv)
    as [[code msg]|[BASE_FILE dwarf_file type_library]]; [reflexivity|].
  cbn [args_BASE_FILE args_dwarf_file args_type_library].
  assert (K : match type_library with
              | Some t => suffix (parse t) = ".bntl"
              | None => True
              end ->
    match
      bind (__init__ host (Some (parse BASE_FILE)) (option_map parse dwarf_file)
              (option_map parse type_library))
        (fun importer w0 =>
           match export_type_library arch_name host None (importer, w0) with
           | (r, s) => (r, snd s)
           end) w
    with
    | (inl _, w') => disk w' = disk w
    | (inr _, w') =>
        exists path lib,
          disk w' = (path, lib) :: disk w /\ endswith path ".bntl" = true
    end).
  { intros Hs. unfold bind.
    pose proof (init_outcome (Some (parse BASE_FILE)) (option_map parse dwarf_file)
                  (option_map parse type_library) w) as Hi.
    destruct (__init__ host (Some (parse BASE_FILE)) (option_map parse dwarf_file)
                (option_map parse type_library) w) as [[e|imp] w0].
    - now destruct Hi as (_ & D & _).
    - destruct Hi as (_ & D & _ & _ & _ & A & _).
      assert (Hend : endswith (str (type_archive imp)) ".bntl" = true).
      { destruct type_library as [t|]; cbn [option_map] in A.
        - rewrite A, <- Hs. apply suffix_endswith. rewrite Hs. discriminate.
        - now apply with_suffix_endswith in A. }
      pose proof (export_general None imp w0) as He.
      destruct (export_type_library arch_name host None (imp, w0))
        as [[e|u] [o' w']]; cbn [snd].
      + destruct He as (_ & _ & _ & _ & D'). congruence.
      + destruct He as (_ & _ & _ & _ & view & a & p & _ & _ & _ & _ & D').
        eexists _, _. split; [rewrite D', D; reflexivity | exact Hend]. }
  destruct type_library as [t|].
  - cbn [option_map] in *.
    destruct (String.eqb_spec (suffix (parse t)) ".bntl") as [E|E].
    + cbn [negb]. rewrite bind_ret. now apply K.
    + reflexivity.
  - cbn [option_map] in *. rewrite bind_ret. now apply K.
Qed.

(** X15: where an exit comes from. main ends with SystemExit if and only
    if the argument parser itself exits (a usage error, or --help), or
    --type-library is given and the suffix of its path is not .bntl: the
    comparison is with the last suffix and case sensitive, and no later step
    exits. *)
Theorem main_exits_iff_bad_suffix (argv : list string) w :
  (exists code msg,
     fst (main arch_name host parse_args argv w) = inl (SystemExit code msg))
  <-> ((exists code msg, parse_args argv = inl (code, msg))
       \/ (exists args t,
             parse_args argv = inr args
             /\ args_type_library args = Some t
             /\ suffix (parse t) <> ".bntl")).
Proof.
  unfold main.
  destruct (parse_args argv)
    as [[code0 msg0]|[BASE_FILE dwarf_file type_library]].
  { split.
    - intros _. left. now exists code0, msg0.
    - intros _. now exists code0, msg0. }
  cbn [args_BASE_FILE args_dwarf_file args_type_library].
  assert (K : forall code msg,
    fst (bind (__init__ host (Some (parse BASE_FILE)) (option_map parse dwarf_file)
                 (option_map parse type_library))
           (fun importer w0 =>
              match export_type_library arch_name host None (importer, w0) with
              | (r, s) => (r, snd s)
              end) w)
    <> inl (SystemExit code msg)).
  { intros code msg. unfold bind.
    pose proof (init_outcome (Some (parse BASE_FILE)) (option_map parse dwarf_file)
                  (option_map parse type_library) w) as Hi.
    destruct (__init__ host (Some (parse BASE_FILE)) (option_map parse dwarf_file)
                (option_map parse type_library) w) as [[e|imp] w0].
    - destruct Hi as (_ & _ & _ & R). cbn [fst]. intros [= ->]. exact R.
    - pose proof (export_general None imp w0) as He.
      destruct (export_type_library arch_name host None (imp, w0))
        as [[e|u] [o' w']]; cbn [fst snd]; [|discriminate].
      destruct He as (_ & _ & _ & [[op ->] | ->] & _); discriminate. }
  split.
  - intros (code & msg & H). right. destruct type_library as [t|].
    + eexists _, t. split; [reflexivity|]. split; [reflexivity|].
      intros E. cbn [option_map] in *.
      rewrite E in H. cbn [String.eqb Ascii.eqb Bool.eqb negb] in H.
      rewrite bind_ret in H. now apply K in H.
    + cbn [option_map] in *. rewrite bind_ret in H. now apply K in H.
  - intros [(code & msg & [=]) | (args & t & [= <-] & Ht & E)].
    cbn [args_type_library] in Ht. subst type_library.
    exists 2, "TYPE_ARCHIVE must have a .bntl extension.".
    cbn [option_map]. apply String.eqb_neq in E. now rewrite E.
Qed.

(** X16: where main writes. When main returns, the parser has handed back
    the arguments and the one file main has written is at the path given
    with --type-library, as pathlib prints it, and without that argument at
    the base file path with its suffix replaced by .bntl. *)
Theorem main_output_path (argv : list string) w :
  match main arch_name host parse_args argv w with
  | (inr _, w') =>
      exists args q lib,
        parse_args argv = inr args
        /\ disk w' = (str q, lib) :: disk w
        /\ match args_type_library args with
           | Some t => q = parse t
           | None => with_suffix (parse (args_BASE_FILE args)) ".bntl" = inr q
           end
  | (inl _, _) => True
  end.
Proof.
  unfold main.
  destruct (parse_args argv)
    as [[code msg]|[BASE_FILE dwarf_file type_library]]; [exact I|].
  cbn [args_BASE_FILE args_dwarf_file args_type_library].
  assert (K :
    match
      bind (__init__ host (Some (parse BASE_FILE)) (option_map parse dwarf_file)
              (option_map parse type_library))
        (fun importer w0 =>
           match export_type_library arch_name host None (importer, w0) with
           | (r, s) => (r, snd s)
           end) w
    with
    | (inr _, w') =>
        exists args q lib,
          inr (A := nat * string)
            (mkNamespace BASE_FILE dwarf_file type_library) = inr args
          /\ disk w' = (str q, lib) :: disk w
          /\ match args_type_library args with
             | Some t => q = parse t
             | None => with_suffix (parse (args_BASE_FILE args)) ".bntl" = inr q
             end
    | (inl _, _) => True
    end).
  { unfold bind.
    pose proof (init_outcome (Some (parse BASE_FILE)) (option_map parse dwarf_file)
                  (option_map parse type_library) w) as Hi.
    destruct (__init__ host (Some (parse BASE_FILE)) (option_map parse dwarf_file)
                (option_map parse type_library) w) as [[e|imp] w0]; [exact I|].
    destruct Hi as (_ & D & _ & B & _ & A & _).
    specialize (B _ eq_refl).
    pose proof (export_general None imp w0) as He.
    destruct (export_type_library arch_name host None (imp, w0))
      as [[e|u] [o' w']]; cbn [snd]; [exact I|].
    destruct He as (_ & _ & _ & _ & view & a & p & _ & _ & _ & _ & D').
    exists (mkNamespace BASE_FILE dwarf_file type_library), (type_archive imp).
    eexists. split; [reflexivity|]. split.
    - rewrite D', D. reflexivity.
    - cbn [args_type_library args_BASE_FILE].
      destruct type_library as [t|]; cbn [option_map] in A;
        [exact A | now rewrite B in A]. }
  destruct type_library as [t|]; cbn [option_map] in *.
  - destruct (negb (String.eqb (suffix (parse t)) ".bntl")).
    + exact I.
    + rewrite bind_ret. exact K.
  - rewrite bind_ret. exact K.
Qed.

(** X17: importing before exporting is redundant. On any instance, a call
    of import_debug_info followed by export_type_library ends exactly as the
    call of export_type_library alone: same result, same instance, same
    world. *)
Theorem import_then_export_is_export out o w :
  run_calls arch_name host [CallImport; CallExport out] (o, w)
  = run_calls arch_name host [CallExport out] (o, w).
Proof.
  cbn [run_calls run_call].
  destruct (import_debug_info host (o, w)) as [[e|[]] [o1 w1]] eqn:Hi.
  - rewrite (@bind_raise _ _ _ _ _ _ _ _ Hi).
    unfold bind at 1.
    now rewrite (@export_import_raises _ _ _ _ arch_name host out _ _ _ Hi).
  - rewrite (@bind_ok _ _ _ _ _ _ _ _ Hi).
    unfold bind.
    now rewrite (@export_after_import _ _ _ _ arch_name host out _ _ Hi).
Qed.

End MoreFacts.

(** ** More runs on the concrete host *)

Lemma base_binaryview_loads_once_witness :
  cached_base_binaryview Demo.importer = None
  /\ host_load Demo.host (str (base_file Demo.importer))
       [("corePlugins.dwarfImport", true)] = Some Demo.base_view
  /\ base_binaryview_twice Demo.host (Demo.importer, Demo.full_bundle)
     = (inr (Demo.base_view, Demo.base_view),
        (set_view Demo.base_view Demo.importer,
         after_events Demo.full_bundle
           [EvLoad "foo.bin" [("corePlugins.dwarfImport", true)]])).
Proof.
  split; [reflexivity|]. split; [reflexivity|].
  exact (@base_binaryview_loads_once _ _ _ _ Demo.host Demo.importer
           Demo.full_bundle Demo.base_view eq_refl eq_refl).
Defined.

Lemma import_debug_info_fresh_run_witness :
  host_load Demo.host (str Demo.dsym_file) [] = Some Demo.debug_view
  /\ host_load Demo.host (str Demo.base_path) [("corePlugins.dwarfImport", true)]
     = Some Demo.base_view
  /\ import_debug_info Demo.host (Demo.importer, Demo.full_bundle)
     = (inr tt, (Demo.imported, Demo.after_import)).
Proof.
  split; [reflexivity|]. split; [reflexivity|].
  exact (@import_debug_info_fresh_run _ _ _ _ Demo.host Demo.base_path
           Demo.dsym_file (parse "out.txt") (getChild "DwarfImporter[foo.bin]")
           Demo.full_bundle Demo.debug_view Demo.base_view Demo.imported_view
           Demo.imported_view
           (bv_types Demo.debug_view, bv_functions Demo.debug_view)
           eq_refl eq_refl eq_refl eq_refl eq_refl).
Defined.

Lemma import_debug_info_debug_file_first_witness :
  import_debug_info_cached Demo.importer_without_debug = false
  /\ host_load Demo.host (str (dwarf_file Demo.importer_without_debug)) [] = None
  /\ import_debug_info Demo.host (Demo.importer_without_debug, Demo.full_bundle)
     = (inl (PlatformError "load"),
        (Demo.importer_without_debug,
         after_events Demo.full_bundle [EvLoad "missing.dwarf" []])).
Proof.
  split; [reflexivity|]. split; [reflexivity|].
  exact (@import_debug_info_debug_file_first _ _ _ _ Demo.host
           Demo.importer_without_debug Demo.full_bundle eq_refl eq_refl).
Defined.

Lemma export_type_library_needs_arch_and_platform_witness :
  import_debug_info Demo.host_without_arch (Demo.importer, Demo.full_bundle)
  = (inr tt, (Demo.imported_without_arch, Demo.after_import))
  /\ export_type_library Demo.arch_name Demo.host_without_arch None
       (Demo.importer, Demo.full_bundle)
     = (inl AssertionError, (Demo.imported_without_arch, Demo.after_import)).
Proof.
  assert (I : import_debug_info Demo.host_without_arch
                (Demo.importer, Demo.full_bundle)
              = (inr tt, (Demo.imported_without_arch, Demo.after_import)))
    by (vm_compute; reflexivity).
  split; [exact I|].
  exact (@export_type_library_needs_arch_and_platform _ _ _ _ Demo.arch_name
           Demo.host_without_arch None Demo.importer Demo.full_bundle
           Demo.imported_without_arch Demo.after_import _
           I eq_refl (or_introl eq_refl)).
Defined.

Lemma export_type_library_names_library_witness :
  import_debug_info Demo.host (Demo.importer, Demo.full_bundle)
  = (inr tt, (Demo.imported, Demo.after_import))
  /\ exists lib w2,
       export_type_library Demo.arch_name Demo.host None
         (Demo.importer, Demo.full_bundle)
       = (inr tt, (Demo.imported, w2))
       /\ disk w2 = [("out.txt", lib)]
       /\ tl_arch lib = "x86_64"
       /\ tl_name lib = "foo.bin_x86_64_types"
       /\ tl_platforms lib = ["mac-x86_64"]
       /\ tl_alternate_names lib = ["foo.bin"].
Proof.
  assert (I : import_debug_info Demo.host (Demo.importer, Demo.full_bundle)
              = (inr tt, (Demo.imported, Demo.after_import)))
    by (vm_compute; reflexivity).
  split; [exact I|].
  exact (@export_type_library_names_library _ _ _ _ Demo.arch_name Demo.host None
           Demo.importer Demo.full_bundle Demo.imported Demo.after_import
           Demo.imported_view "x86_64" "mac-x86_64"
           I eq_refl eq_refl eq_refl eq_refl).
Defined.

Lemma export_twice_imports_once_witness :
  import_debug_info Demo.host (Demo.importer, Demo.full_bundle)
  = (inr tt, (Demo.imported, Demo.after_import))
  /\ exists w3 added,
       export_twice Demo.arch_name Demo.host None (Some (parse "second.bntl"))
         (Demo.importer, Demo.full_bundle)
       = (inr tt, (Demo.imported, w3))
       /\ disk w3 = [("second.bntl", Demo.library); ("out.txt", Demo.library)]
       /\ trace w3 = (trace Demo.after_import ++ added)%list
       /\ filter (@is_import_event _ _ _) added = [].
Proof.
  assert (I : import_debug_info Demo.host (Demo.importer, Demo.full_bundle)
              = (inr tt, (Demo.imported, Demo.after_import)))
    by (vm_compute; reflexivity).
  split; [exact I|].
  exact (@export_twice_imports_once _ _ _ _ Demo.arch_name Demo.host None
           (Some (parse "second.bntl"))
           Demo.importer Demo.full_bundle Demo.imported Demo.after_import
           Demo.imported_view "x86_64" "mac-x86_64"
           I eq_refl eq_refl eq_refl eq_refl).
Defined.

Lemma init_discovers_dwarf_file_witness :
  wf (parse "foo.bin")
  /\ exists_in Demo.full_bundle (parse "foo.bin.dSYM") = true
  /\ exists imp,
       fst (__init__ Demo.host (Some (parse "foo.bin")) None None Demo.full_bundle)
       = inr imp
       /\ base_file imp = parse "foo.bin"
       /\ dwarf_file imp = parse "foo.bin.dSYM/Contents/Resources/DWARF/foo.bin".
Proof.
  split; [apply parse_wf|]. split; [reflexivity|].
  apply (@init_discovers_dwarf_file _ _ _ _ Demo.host (parse "foo.bin") None
           Demo.full_bundle (parse_wf "foo.bin") eq_refl).
  right. discriminate.
Defined.

Lemma find_dwarf_file_beside_base_witness :
  wf (parse "build/app")
  /\ _find_dwarf_file "binaryninja-dwarf.DwarfImporter[app]" (parse "build/app")
       Demo.nested_bundle
     = (inr (parse "build/app.dSYM/Contents/Resources/DWARF/app"),
        after_events Demo.nested_bundle
          [EvFindDwarf (parse "build/app");
           EvLog "binaryninja-dwarf.DwarfImporter[app]"
             "Looking for DWARF file for build/app @ build/app.dSYM";
           EvExists (parse "build/app.dSYM")]).
Proof.
  split; [apply parse_wf|].
  exact (@find_dwarf_file_beside_base _ _ _
           "binaryninja-dwarf.DwarfImporter[app]" (parse "build/app")
           ["build"] "app" Demo.nested_bundle (parse_wf "build/app") eq_refl).
Defined.
